(** * LocationCalcApp: the GPS odometer and its cloud tracking client

    A shallow embedding of [App.tsx] (the tracking screen: session state,
    the location callback, start / stop / reset) and of [LocationService]
    (the thin client of the cloud location API).

    Conventions.
    - A JavaScript [number] is an exact rational ([Q]): the properties below
      are about which samples are accumulated and in which order, not about
      binary64 rounding.  Millisecond clocks and the whole-second [duration]
      are integers ([Z]).
    - [null] / [undefined] is [None].
    - An [async] function is a computation that yields the effects it
      performs together with the way its promise settles ([Return] is a
      fulfilled promise, [Throw] a rejected one).
    - The geodesic solver ([geographiclib]) and the cloud client's [send]
      are external: they are taken as values of the interfaces [Geodesic]
      and [LocationClient]. *)

From Stdlib Require Import QArith Qabs ZArith List String Bool Lia.
From Stdlib Require Import Ascii DecimalString Lqa.
Import ListNotations.

Open Scope Q_scope.

(** ** JavaScript values shared by both files *)

Inductive JsError : Type :=
| Error (message : string)
| TypeError (message : string)
| ServiceException (name message : string).

(** [a > b] on numbers. *)
Definition Qgtb (a b : Q) : bool := negb (Qle_bool a b).

(** [x || 0] on a possibly missing number: a missing value and zero both
    give the literal [0]. *)
Definition orZero (x : option Q) : Q :=
  match x with
  | Some v => if Qeq_bool v 0 then 0 else v
  | None => 0
  end.

(** [x ?? 0]. *)
Definition nullish0 (x : option Q) : Q :=
  match x with
  | Some v => v
  | None => 0
  end.

(** ** The cloud API: commands and responses *)

Record DevicePositionUpdate : Type := {
  DeviceId : string;
  Position : Q * Q;                 (* [lng, lat] *)
  SampleTime : Z;
  Accuracy : option Q               (* { Horizontal } or undefined *)
}.

Inductive TravelMode : Type := Car | Truck | Walking.

Inductive Command : Type :=
| BatchUpdateDevicePositionCommand
    (TrackerName : string) (Updates : list DevicePositionUpdate)
| SearchPlaceIndexForTextCommand
    (IndexName : string) (Text : string) (MaxResults : Z)
| SearchPlaceIndexForPositionCommand
    (IndexName : string) (Position : Q * Q) (MaxResults : Z)
| CalculateRouteCommand
    (CalculatorName : string) (DeparturePosition DestinationPosition : Q * Q)
    (mode : TravelMode) (IncludeLegGeometry : bool) (DistanceUnit : string)
| GetDevicePositionHistoryCommand
    (TrackerName : string) (DeviceId : string)
    (StartTimeInclusive EndTimeExclusive : Z).

Record PlaceGeometry : Type := { Point : option (list Q) }.

Record Place : Type := {
  Label : option string;
  Geometry : option PlaceGeometry;
  Country : option string;
  Region : option string;
  Municipality : option string
}.

Record SearchResult : Type := { place : option Place }.

Record LegGeometry : Type := { LineString : option (list (list Q)) }.

Record Leg : Type := { legGeometry : option LegGeometry }.

Record RouteSummary : Type := {
  Distance : option Q;
  DurationSeconds : option Q
}.

Record DevicePosition : Type := {
  dpPosition : option (list Q);
  dpSampleTime : option Z;
  dpAccuracy : option (option Q)    (* Accuracy?.Horizontal *)
}.

(** The output object of a command; a field the service did not fill is
    [undefined]. *)
Record Response : Type := {
  Results : option (list SearchResult);
  Summary : option RouteSummary;
  Legs : option (list Leg);
  DevicePositions : option (list DevicePosition)
}.

(** ** Effects and completions *)

Inductive Effect : Type :=
| ConsoleLog (msg : string)
| ConsoleLogResponse (msg : string) (r : Response)
| ConsoleWarn (msg : string)
| ConsoleWarnError (e : JsError)
| ConsoleWarnWith (msg : string) (e : JsError)
| ConsoleError (msg : string) (e : JsError)
| Alert (title msg : string)
| Send (c : Command)
| SetInterval (id : nat)
| ClearInterval (id : nat)
| RemoveSubscription (id : nat).

Inductive Completion (A : Type) : Type :=
| Return (a : A)
| Throw (e : JsError).
Arguments Return {A} a.
Arguments Throw {A} e.

(** A computation: the effects performed, in order, and how it completes. *)
Definition Eff (A : Type) : Type := list Effect * Completion A.

Definition ret {A} (a : A) : Eff A := ([], Return a).
Definition throw {A} (e : JsError) : Eff A := ([], Throw e).
Definition emit (x : Effect) : Eff unit := ([x], Return tt).

Definition bind {A B} (m : Eff A) (k : A -> Eff B) : Eff B :=
  match m with
  | (fx, Return a) => let '(fx', c) := k a in (fx ++ fx', c)
  | (fx, Throw e) => (fx, Throw e)
  end.

(** [try { m } catch (error) { h error }]. *)
Definition tryCatch {A} (m : Eff A) (h : JsError -> Eff A) : Eff A :=
  match m with
  | (fx, Return a) => (fx, Return a)
  | (fx, Throw e) => let '(fx', c) := h e in (fx ++ fx', c)
  end.

Declare Scope eff_scope.
Delimit Scope eff_scope with eff.
Notation "x <- m ;; k" := (bind m (fun x => k))
  (at level 61, m at next level, right associativity) : eff_scope.
Notation "m ;;; k" := (bind m (fun _ => k))
  (at level 61, right associativity) : eff_scope.

Definition effects {A} (m : Eff A) : list Effect := fst m.
Definition completion {A} (m : Eff A) : Completion A := snd m.

(** The commands a computation handed to the cloud client. *)
Fixpoint sentCommands (fx : list Effect) : list Command :=
  match fx with
  | [] => []
  | Send c :: rest => c :: sentCommands rest
  | _ :: rest => sentCommands rest
  end.

(** ** LocationService *)

Module LocationService.

(** The SDK client: [send] either yields the command's output or throws. *)
Record LocationClient : Type := {
  send : Command -> Response + JsError
}.

Record t : Type := {
  region : string;
  identityPoolId : string;
  trackerName : string;
  mapName : string;
  placeIndexName : string;
  routeCalculatorName : string;
  locationClient : option LocationClient;
  deviceId : string
}.

Local Open Scope eff_scope.

(** [initialize], run by the constructor on a service whose client is still
    [null]: [construct] is what building the credentials and the SDK client
    gives. *)
Definition initialize (this : t) (construct : LocationClient + JsError)
  : t * list Effect :=
  match construct with
  | inl client =>
      ({| region := region this; identityPoolId := identityPoolId this;
          trackerName := trackerName this; mapName := mapName this;
          placeIndexName := placeIndexName this;
          routeCalculatorName := routeCalculatorName this;
          locationClient := Some client; deviceId := deviceId this |},
       [ConsoleLog "AWS Location Service initialized"])
  | inr error =>
      (this, [ConsoleError "Failed to initialize AWS Location Service:" error])
  end.

(** [await this.locationClient.send(command)]. *)
Definition awaitSend (client : LocationClient) (c : Command) : Eff Response :=
  emit (Send c) ;;;
  match send client c with
  | inl r => ret r
  | inr e => throw e
  end.

(** [accuracy ? { Horizontal: accuracy } : undefined]. *)
Definition horizontal (accuracy : option Q) : option Q :=
  match accuracy with
  | Some a => if Qeq_bool a 0 then None else Some a
  | None => None
  end.

Definition trackPosition (this : t) (latitude longitude : Q)
    (accuracy : option Q) (timestamp : Z) : Eff (option Response) :=
  match locationClient this with
  | None =>
      emit (ConsoleWarn "Location client not initialized") ;;;
      ret None
  | Some client =>
      tryCatch
        (let command :=
           BatchUpdateDevicePositionCommand (trackerName this)
             [ {| DeviceId := deviceId this;
                  Position := (longitude, latitude);
                  SampleTime := timestamp;
                  Accuracy := horizontal accuracy |} ] in
         response <- awaitSend client command ;;
         emit (ConsoleLogResponse "Position tracked successfully:" response) ;;;
         ret (Some response))
        (fun error =>
           emit (ConsoleError "Failed to track position:" error) ;;;
           throw error)
  end.

Record GeocodeResult : Type := {
  gLatitude : option Q;
  gLongitude : option Q;
  gAddress : option string
}.

(** [place?.Geometry?.Point?.[i]]. *)
Definition pointAt (p : option Place) (i : nat) : option Q :=
  match p with
  | Some pl =>
      match Geometry pl with
      | Some g =>
          match Point g with
          | Some pt => nth_error pt i
          | None => None
          end
      | None => None
      end
  | None => None
  end.

Definition placeField (f : Place -> option string) (p : option Place)
  : option string :=
  match p with
  | Some pl => f pl
  | None => None
  end.

Definition geocode (this : t) (address : string)
  : Eff (option GeocodeResult) :=
  match locationClient this with
  | None => throw (Error "Location client not initialized")
  | Some client =>
      tryCatch
        (let command :=
           SearchPlaceIndexForTextCommand (placeIndexName this) address 1 in
         response <- awaitSend client command ;;
         match Results response with
         | Some (r0 :: _) =>
             let place := place r0 in
             ret (Some {| gLatitude := pointAt place 1;
                          gLongitude := pointAt place 0;
                          gAddress := placeField Label place |})
         | _ => ret None
         end)
        (fun error =>
           emit (ConsoleError "Geocoding failed:" error) ;;;
           throw error)
  end.

Record ReverseGeocodeResult : Type := {
  rAddress : option string;
  rCountry : option string;
  rRegion : option string;
  rMunicipality : option string
}.

Definition reverseGeocode (this : t) (latitude longitude : Q)
  : Eff (option ReverseGeocodeResult) :=
  match locationClient this with
  | None => throw (Error "Location client not initialized")
  | Some client =>
      tryCatch
        (let command :=
           SearchPlaceIndexForPositionCommand (placeIndexName this)
             (longitude, latitude) 1 in
         response <- awaitSend client command ;;
         match Results response with
         | Some (r0 :: _) =>
             let place := place r0 in
             ret (Some {| rAddress := placeField Label place;
                          rCountry := placeField Country place;
                          rRegion := placeField Region place;
                          rMunicipality := placeField Municipality place |})
         | _ => ret None
         end)
        (fun error =>
           emit (ConsoleError "Reverse geocoding failed:" error) ;;;
           throw error)
  end.

Record RouteResult : Type := {
  rtDistance : option Q;
  rtDuration : option Q;
  rtGeometry : option (list (list Q))
}.

(** [response.Legs?.[0].Geometry?.LineString]: the optional chain stops
    at a missing [Legs]; a present but empty [Legs] reads a property of
    [undefined]. *)
Definition firstLegLineString (legs : option (list Leg))
  : Eff (option (list (list Q))) :=
  match legs with
  | None => ret None
  | Some [] =>
      throw (TypeError "Cannot read properties of undefined (reading 'Geometry')")
  | Some (l0 :: _) =>
      ret (match legGeometry l0 with
           | Some g => LineString g
           | None => None
           end)
  end.

Definition calculateRoute (this : t) (startLat startLng endLat endLng : Q)
    (travelMode : TravelMode) : Eff RouteResult :=
  match locationClient this with
  | None => throw (Error "Location client not initialized")
  | Some client =>
      tryCatch
        (let command :=
           CalculateRouteCommand (routeCalculatorName this)
             (startLng, startLat) (endLng, endLat)
             travelMode true "Kilometers" in
         response <- awaitSend client command ;;
         geometry <- firstLegLineString (Legs response) ;;
         ret {| rtDistance :=
                  match Summary response with
                  | Some s => Distance s
                  | None => None
                  end;
                rtDuration :=
                  match Summary response with
                  | Some s => DurationSeconds s
                  | None => None
                  end;
                rtGeometry := geometry |})
        (fun error =>
           emit (ConsoleError "Route calculation failed:" error) ;;;
           throw error)
  end.

Record HistoryEntry : Type := {
  hLatitude : option Q;
  hLongitude : option Q;
  hTimestamp : option Z;
  hAccuracy : option Q
}.

Definition historyEntry (pos : DevicePosition) : HistoryEntry :=
  {| hLatitude :=
       match dpPosition pos with Some p => nth_error p 1 | None => None end;
     hLongitude :=
       match dpPosition pos with Some p => nth_error p 0 | None => None end;
     hTimestamp := dpSampleTime pos;
     hAccuracy :=
       match dpAccuracy pos with Some a => a | None => None end |}.

Definition getDevicePositionHistory (this : t) (startTime endTime : Z)
  : Eff (option (list HistoryEntry)) :=
  match locationClient this with
  | None => throw (Error "Location client not initialized")
  | Some client =>
      tryCatch
        (let command :=
           GetDevicePositionHistoryCommand (trackerName this)
             (deviceId this) startTime endTime in
         response <- awaitSend client command ;;
         ret (match DevicePositions response with
              | Some ps => Some (map historyEntry ps)
              | None => None
              end))
        (fun error =>
           emit (ConsoleError "Failed to get position history:" error) ;;;
           throw error)
  end.

End LocationService.

(** ** The geodesic solver (geographiclib) *)

(** The object [Inverse] returns; [s12] is the distance in metres and is
    typed as possibly missing. *)
Record GeodesicResult : Type := { s12 : option Q }.

Record Geodesic : Type := {
  Inverse : Q -> Q -> Q -> Q -> GeodesicResult
}.

(** ** App *)

Record Coordinate : Type := { latitude : Q; longitude : Q }.

Record Coords : Type := {
  coordsLatitude : Q;
  coordsLongitude : Q;
  coordsAccuracy : option Q;
  coordsSpeed : option Q
}.

Record LocationObject : Type := { coords : Coords; timestamp : Z }.

Module App.

(** The component's [useState] cells and [useRef] cells. *)
Record State : Type := {
  isTracking : bool;
  totalDistance : Q;
  currentSpeed : Q;
  duration : Z;
  currentPosition : option Coordinate;
  routeCoordinates : list Coordinate;
  locationSubscription : option nat;
  startTimeRef : option Z;
  durationIntervalRef : option nat;
  lastPositionRef : option Coordinate
}.

Definition initialState : State :=
  {| isTracking := false; totalDistance := 0; currentSpeed := 0;
     duration := 0%Z; currentPosition := None; routeCoordinates := [];
     locationSubscription := None; startTimeRef := None;
     durationIntervalRef := None; lastPositionRef := None |}.

Definition setIsTracking (v : bool) (s : State) : State :=
  {| isTracking := v; totalDistance := totalDistance s;
     currentSpeed := currentSpeed s; duration := duration s;
     currentPosition := currentPosition s;
     routeCoordinates := routeCoordinates s;
     locationSubscription := locationSubscription s;
     startTimeRef := startTimeRef s;
     durationIntervalRef := durationIntervalRef s;
     lastPositionRef := lastPositionRef s |}.

(** [setTotalDistance] takes the updater form [(prev) => ...]; a constant
    is [fun _ => c]. *)
Definition setTotalDistance (f : Q -> Q) (s : State) : State :=
  {| isTracking := isTracking s; totalDistance := f (totalDistance s);
     currentSpeed := currentSpeed s; duration := duration s;
     currentPosition := currentPosition s;
     routeCoordinates := routeCoordinates s;
     locationSubscription := locationSubscription s;
     startTimeRef := startTimeRef s;
     durationIntervalRef := durationIntervalRef s;
     lastPositionRef := lastPositionRef s |}.

Definition setCurrentSpeed (v : Q) (s : State) : State :=
  {| isTracking := isTracking s; totalDistance := totalDistance s;
     currentSpeed := v; duration := duration s;
     currentPosition := currentPosition s;
     routeCoordinates := routeCoordinates s;
     locationSubscription := locationSubscription s;
     startTimeRef := startTimeRef s;
     durationIntervalRef := durationIntervalRef s;
     lastPositionRef := lastPositionRef s |}.

Definition setDuration (v : Z) (s : State) : State :=
  {| isTracking := isTracking s; totalDistance := totalDistance s;
     currentSpeed := currentSpeed s; duration := v;
     currentPosition := currentPosition s;
     routeCoordinates := routeCoordinates s;
     locationSubscription := locationSubscription s;
     startTimeRef := startTimeRef s;
     durationIntervalRef := durationIntervalRef s;
     lastPositionRef := lastPositionRef s |}.

Definition setCurrentPosition (v : option Coordinate) (s : State) : State :=
  {| isTracking := isTracking s; totalDistance := totalDistance s;
     currentSpeed := currentSpeed s; duration := duration s;
     currentPosition := v;
     routeCoordinates := routeCoordinates s;
     locationSubscription := locationSubscription s;
     startTimeRef := startTimeRef s;
     durationIntervalRef := durationIntervalRef s;
     lastPositionRef := lastPositionRef s |}.

(** [setRouteCoordinates] in its updater form. *)
Definition setRouteCoordinates
    (f : list Coordinate -> list Coordinate) (s : State) : State :=
  {| isTracking := isTracking s; totalDistance := totalDistance s;
     currentSpeed := currentSpeed s; duration := duration s;
     currentPosition := currentPosition s;
     routeCoordinates := f (routeCoordinates s);
     locationSubscription := locationSubscription s;
     startTimeRef := startTimeRef s;
     durationIntervalRef := durationIntervalRef s;
     lastPositionRef := lastPositionRef s |}.

Definition setLocationSubscription (v : option nat) (s : State) : State :=
  {| isTracking := isTracking s; totalDistance := totalDistance s;
     currentSpeed := currentSpeed s; duration := duration s;
     currentPosition := currentPosition s;
     routeCoordinates := routeCoordinates s;
     locationSubscription := v;
     startTimeRef := startTimeRef s;
     durationIntervalRef := durationIntervalRef s;
     lastPositionRef := lastPositionRef s |}.

Definition setStartTimeRef (v : option Z) (s : State) : State :=
  {| isTracking := isTracking s; totalDistance := totalDistance s;
     currentSpeed := currentSpeed s; duration := duration s;
     currentPosition := currentPosition s;
     routeCoordinates := routeCoordinates s;
     locationSubscription := locationSubscription s;
     startTimeRef := v;
     durationIntervalRef := durationIntervalRef s;
     lastPositionRef := lastPositionRef s |}.

Definition setDurationIntervalRef (v : option nat) (s : State) : State :=
  {| isTracking := isTracking s; totalDistance := totalDistance s;
     currentSpeed := currentSpeed s; duration := duration s;
     currentPosition := currentPosition s;
     routeCoordinates := routeCoordinates s;
     locationSubscription := locationSubscription s;
     startTimeRef := startTimeRef s;
     durationIntervalRef := v;
     lastPositionRef := lastPositionRef s |}.

Definition setLastPositionRef (v : option Coordinate) (s : State) : State :=
  {| isTracking := isTracking s; totalDistance := totalDistance s;
     currentSpeed := currentSpeed s; duration := duration s;
     currentPosition := currentPosition s;
     routeCoordinates := routeCoordinates s;
     locationSubscription := locationSubscription s;
     startTimeRef := startTimeRef s;
     durationIntervalRef := durationIntervalRef s;
     lastPositionRef := v |}.

(** What the platform answers to a permission request. *)
Inductive PermissionOutcome : Type :=
| PermissionStatus (status : string)
| PermissionFailure (err : JsError).

Definition requestLocationPermission (o : PermissionOutcome)
  : bool * list Effect :=
  match o with
  | PermissionStatus status => (String.eqb status "granted", [])
  | PermissionFailure err => (false, [ConsoleWarnError err])
  end.

(** [stopTracking]. *)
Definition stopTracking (s : State) : State * list Effect :=
  let s1 := setIsTracking false s in
  let '(s2, fx2) :=
    match locationSubscription s1 with
    | Some sub => (setLocationSubscription None s1, [RemoveSubscription sub])
    | None => (s1, [])
    end in
  let '(s3, fx3) :=
    match durationIntervalRef s2 with
    | Some id => (setDurationIntervalRef None s2, [ClearInterval id])
    | None => (s2, [])
    end in
  (s3, fx2 ++ fx3).

(** [resetTracking]. *)
Definition resetTracking (s : State) : State * list Effect :=
  let '(s1, fx) := stopTracking s in
  let s2 := setTotalDistance (fun _ => 0) s1 in
  let s3 := setCurrentSpeed 0 s2 in
  let s4 := setDuration 0%Z s3 in
  let s5 := setRouteCoordinates (fun _ => []) s4 in
  (setLastPositionRef None s5, fx).

(** The body of the [setInterval] callback, run at clock reading [now]. *)
Definition durationTick (now : Z) (s : State) : State :=
  let start := match startTimeRef s with Some t => t | None => 0%Z end in
  let elapsed := ((now - start) / 1000)%Z in
  setDuration elapsed s.

(** [startTracking] up to its [await Location.watchPositionAsync(...)]:
    the permission answer [perm] has arrived, the clock reads [now] and
    [setInterval] hands out [timer]. *)
Definition startTracking (perm : PermissionOutcome) (now : Z) (timer : nat)
    (s : State) : State * list Effect :=
  let '(hasPermission, fx) := requestLocationPermission perm in
  if negb hasPermission then
    (s, fx ++ [Alert "Permission Denied"
                 "Location permission is required to track your movement."])
  else
    let s1 := setIsTracking true s in
    let s2 := setTotalDistance (fun _ => 0) s1 in
    let s3 := setDuration 0%Z s2 in
    let s4 := setRouteCoordinates (fun _ => []) s3 in
    let s5 := setLastPositionRef None s4 in
    let s6 := setStartTimeRef (Some now) s5 in
    (setDurationIntervalRef (Some timer) s6, fx ++ [SetInterval timer]).

(** The continuation of [startTracking] once [watchPositionAsync] settles. *)
Definition watchSettled (r : nat + JsError) (s : State)
  : State * list Effect :=
  match r with
  | inl sub => (setLocationSubscription (Some sub) s, [])
  | inr error =>
      (s, [ConsoleError "Location error:" error;
           Alert "Location Error"
             "Failed to get location. Please check your GPS settings."])
  end.

(** The mount effect that fetches the initial position. *)
Definition initialFix (perm : PermissionOutcome) (r : Coords + JsError)
    (s : State) : State * list Effect :=
  let '(hasPermission, fx) := requestLocationPermission perm in
  if hasPermission then
    match r with
    | inl c =>
        (setCurrentPosition
           (Some {| latitude := coordsLatitude c;
                    longitude := coordsLongitude c |}) s, fx)
    | inr err =>
        (s, fx ++ [ConsoleWarnWith "Failed to get initial location:" err])
    end
  else (s, fx).

Section Tracking.

(** [Geodesic.WGS84] and the [LocationService] singleton. *)
Variable WGS84 : Geodesic.
Variable service : LocationService.t.

Definition calculateDistanceGeodesic (lat1 lon1 lat2 lon2 : Q) : Q :=
  let geod := WGS84 in
  let result := Inverse geod lat1 lon1 lat2 lon2 in
  nullish0 (s12 result).

(** The callback handed to [watchPositionAsync]; [now] is the clock
    reading [trackPosition] takes as its default [timestamp]. *)
Definition onLocation (location : LocationObject) (now : Z) (s : State)
  : State * list Effect :=
  let lat := coordsLatitude (coords location) in
  let lng := coordsLongitude (coords location) in
  let speed := coordsSpeed (coords location) in
  let newPosition := {| latitude := lat; longitude := lng |} in
  let s1 := setCurrentPosition (Some newPosition) s in
  let s2 := setCurrentSpeed (orZero speed) s1 in
  match lastPositionRef s2 with
  | None =>
      let s3 := setLastPositionRef (Some newPosition) s2 in
      (setRouteCoordinates (fun _ => [newPosition]) s3, [])
  | Some last =>
      let distance :=
        calculateDistanceGeodesic (latitude last) (longitude last)
          lat lng in
      let s3 :=
        if Qgtb distance 3 then
          setRouteCoordinates (fun prev => prev ++ [newPosition])
            (setTotalDistance (fun prev => prev + distance) s2)
        else s2 in
      let s4 := setLastPositionRef (Some newPosition) s3 in
      (s4, effects (LocationService.trackPosition service
                      lat lng None now))
  end.

(** Everything that can happen to the screen.  No order is imposed on the
    events: a location update may arrive in any state, which covers a
    subscription that outlives a stop or a second start. *)
Inductive Event : Type :=
| Mounted (perm : PermissionOutcome) (r : Coords + JsError)
| StartPressed (perm : PermissionOutcome) (now : Z) (timer : nat)
| WatchSettled (r : nat + JsError)
| LocationUpdate (location : LocationObject) (now : Z)
| TimerFired (now : Z)
| StopPressed
| ResetPressed.

Definition step (s : State) (e : Event) : State * list Effect :=
  match e with
  | Mounted perm r => initialFix perm r s
  | StartPressed perm now timer => startTracking perm now timer s
  | WatchSettled r => watchSettled r s
  | LocationUpdate location now => onLocation location now s
  | TimerFired now => (durationTick now s, [])
  | StopPressed => stopTracking s
  | ResetPressed => resetTracking s
  end.

(** The state after a history of events, oldest first. *)
Definition run (evs : list Event) : State :=
  fold_left (fun s e => fst (step s e)) evs initialState.

(** A stream of location updates delivered to the callback. *)
Definition updates (s : State) (us : list (LocationObject * Z)) : State :=
  fold_left (fun s u => fst (onLocation (fst u) (snd u) s)) us s.

End Tracking.

End App.

(** ** The odometer, described over the stream of fixes *)

Definition positionOf (location : LocationObject) : Coordinate :=
  {| latitude := coordsLatitude (coords location);
     longitude := coordsLongitude (coords location) |}.

Definition Qsum (l : list Q) : Q := fold_right Qplus 0 l.

Section Odometer.

Variable WGS84 : Geodesic.

Definition geodesicDistance (p q : Coordinate) : Q :=
  App.calculateDistanceGeodesic WGS84
    (latitude p) (longitude p) (latitude q) (longitude q).

(** The noise threshold of the callback: three metres, exclusive. *)
Definition aboveThreshold (d : Q) : bool := Qgtb d 3.

(** The distances between each point of a polyline and the next. *)
Fixpoint legs (ps : list Coordinate) : list Q :=
  match ps with
  | [] => []
  | p :: rest =>
      match rest with
      | [] => []
      | q :: _ => geodesicDistance p q :: legs rest
      end
  end.

(** The length of a polyline: the sum of the geodesic distances between
    its consecutive points. *)
Definition pathLength (ps : list Coordinate) : Q := Qsum (legs ps).

(** Over the fixes in the order received: the sum of those distances
    from one fix to the next that exceed the threshold. *)
Definition movedDistance (fixes : list Coordinate) : Q :=
  Qsum (filter aboveThreshold (legs fixes)).

(** The fixes after [prev] that lie more than the threshold away from the
    fix received just before them. *)
Fixpoint acceptedAfter (prev : Coordinate) (fixes : list Coordinate)
  : list Coordinate :=
  match fixes with
  | [] => []
  | q :: rest =>
      if aboveThreshold (geodesicDistance prev q)
      then q :: acceptedAfter q rest
      else acceptedAfter q rest
  end.

(** The first fix, then every later fix that moved more than the
    threshold away from its predecessor in the stream. *)
Definition acceptedRoute (fixes : list Coordinate) : list Coordinate :=
  match fixes with
  | [] => []
  | p :: rest => p :: acceptedAfter p rest
  end.

Fixpoint lastFix (fixes : list Coordinate) : option Coordinate :=
  match fixes with
  | [] => None
  | p :: rest =>
      match rest with
      | [] => Some p
      | _ :: _ => lastFix rest
      end
  end.

(** What one more fix adds to the odometer, given the fix before it. *)
Definition increment (last : option Coordinate) (q : Coordinate) : Q :=
  match last with
  | Some p =>
      if aboveThreshold (geodesicDistance p q) then geodesicDistance p q else 0
  | None => 0
  end.

(** The fixes delivered since the session was last started or reset. *)
Definition noteFix (fixes : list Coordinate) (e : App.Event)
  : list Coordinate :=
  match e with
  | App.StartPressed perm _ _ =>
      if fst (App.requestLocationPermission perm) then [] else fixes
  | App.ResetPressed => []
  | App.LocationUpdate location _ => fixes ++ [positionOf location]
  | _ => fixes
  end.

Definition sessionFixes (evs : list App.Event) : list Coordinate :=
  fold_left noteFix evs [].

(** The session state agrees with the stream of fixes received so far. *)
Definition tracks (s : App.State) (fixes : list Coordinate) : Prop :=
  App.totalDistance s == movedDistance fixes /\
  App.routeCoordinates s = acceptedRoute fixes /\
  App.lastPositionRef s = lastFix fixes.

End Odometer.

(** The command [trackPosition] builds for a sample. *)
Definition positionCommand (this : LocationService.t) (lat lng : Q)
    (accuracy : option Q) (timestamp : Z) : Command :=
  BatchUpdateDevicePositionCommand (LocationService.trackerName this)
    [ {| DeviceId := LocationService.deviceId this; Position := (lng, lat);
         SampleTime := timestamp;
         Accuracy := LocationService.horizontal accuracy |} ].

(** While no reference position is held, the route is empty and the
    odometer reads zero. *)
Definition restsAtZero (s : App.State) : Prop :=
  App.lastPositionRef s = None ->
  App.routeCoordinates s = [] /\ App.totalDistance s = 0.

(** ** Concrete collaborators used to exercise the model *)

Module Sample.

(** Metres per degree of longitude along the WGS84 equator,
    [6378137 * pi / 180], to four decimals. *)
Definition metresPerDegree : Q := 1113194908 # 10000.

(** The solver restricted to points of the equator, where the geodesic
    between nearby points is the equatorial arc. *)
Definition equatorWGS84 : Geodesic :=
  {| Inverse := fun _ lon1 _ lon2 =>
       {| s12 := Some (Qabs (lon2 - lon1) * metresPerDegree) |} |}.

(** A solver whose answer carries no [s12]. *)
Definition silentWGS84 : Geodesic :=
  {| Inverse := fun _ _ _ _ => {| s12 := None |} |}.

Definition emptyResponse : Response :=
  {| Results := None; Summary := None; Legs := None;
     DevicePositions := None |}.

Definition okClient : LocationService.LocationClient :=
  {| LocationService.send := fun _ => inl emptyResponse |}.

Definition networkError : JsError :=
  ServiceException "NetworkingError" "Network request failed".

Definition failingClient : LocationService.LocationClient :=
  {| LocationService.send := fun _ => inr networkError |}.

Definition serviceWith (c : option LocationService.LocationClient)
  : LocationService.t :=
  {| LocationService.region := "ap-northeast-1";
     LocationService.identityPoolId := "pool";
     LocationService.trackerName := "tracker";
     LocationService.mapName := "map";
     LocationService.placeIndexName := "places";
     LocationService.routeCalculatorName := "routes";
     LocationService.locationClient := c;
     LocationService.deviceId := "device_1_abc" |}.

(** A fix on the equator at longitude [lon] degrees. *)
Definition fixAt (lon : Q) : LocationObject :=
  {| coords := {| coordsLatitude := 0; coordsLongitude := lon;
                  coordsAccuracy := None; coordsSpeed := Some 1 |};
     timestamp := 0%Z |}.

(** Three fixes heading east: about 2.23 m, then a further 4.45 m. *)
Definition fix0 : LocationObject := fixAt 0.
Definition fix1 : LocationObject := fixAt (2 # 100000).
Definition fix2 : LocationObject := fixAt (6 # 100000).

Definition granted : App.PermissionOutcome := App.PermissionStatus "granted".

(** A session that has just been started. *)
Definition started : list App.Event :=
  [App.StartPressed granted 1000%Z 1%nat; App.WatchSettled (inl 7%nat)].

(** A slow start followed by a longer hop. *)
Definition stroll : list App.Event :=
  started ++ [App.LocationUpdate fix0 2000%Z;
              App.LocationUpdate fix1 3000%Z;
              App.LocationUpdate fix2 4000%Z].

End Sample.

(** ** The display helpers and the zoom cell of the screen *)

Module AppView.

(** [n.toString()] of a whole number. *)
Definition toString (n : Z) : string := NilZero.string_of_int (Z.to_int n).

(** The first [n] characters of [pad] repeated without end; [cur] is what
    is left of the copy being written. *)
Fixpoint filler (n : nat) (pad cur : string) : string :=
  match n with
  | O => EmptyString
  | S n' =>
      match cur with
      | String c rest => String c (filler n' pad rest)
      | EmptyString =>
          match pad with
          | String c rest => String c (filler n' pad rest)
          | EmptyString => EmptyString
          end
      end
  end.

(** [s.padStart(targetLength, pad)]. *)
Definition padStart (targetLength : nat) (pad s : string) : string :=
  if (targetLength <=? String.length s)%nat then s
  else (filler (targetLength - String.length s) pad pad ++ s)%string.

(** [formatTime], on the whole seconds the duration cell holds. *)
Definition formatTime (seconds : Z) : string :=
  let hrs := (seconds / 3600)%Z in
  let mins := (Z.rem seconds 3600 / 60)%Z in
  let secs := Z.rem seconds 60 in
  (padStart 2 "0" (toString hrs) ++ ":"
   ++ padStart 2 "0" (toString mins) ++ ":"
   ++ padStart 2 "0" (toString secs))%string.

(** The decimal digit [d] as a character. *)
Definition digit (d : Z) : ascii := ascii_of_nat (48 + Z.to_nat d).

(** A number below one hundred written with exactly two digits. *)
Definition twoDigits (n : Z) : string :=
  String (digit (n / 10)) (String (digit (n mod 10)) EmptyString).

(** The clock face [HH:MM:SS]. *)
Definition clockFace (h m s : Z) : string :=
  (twoDigits h ++ ":" ++ twoDigits m ++ ":" ++ twoDigits s)%string.

(** [Math.max] and [Math.min] of two numbers. *)
Definition mathMax (a b : Q) : Q := if Qle_bool a b then b else a.
Definition mathMin (a b : Q) : Q := if Qle_bool a b then a else b.

(** The [mapZoom] cell: its initial value and its two updaters. *)
Definition initialMapZoom : Q := 0.01.
Definition zoomIn (z : Q) : Q := mathMax 0.0025 (z * 0.5).
Definition zoomOut (z : Q) : Q := mathMin 0.05 (z * 2).

Inductive ZoomPress : Type := PressIn | PressOut.

Definition zoom (z : Q) (p : ZoomPress) : Q :=
  match p with
  | PressIn => zoomIn z
  | PressOut => zoomOut z
  end.

(** The zoom after a series of presses, oldest first. *)
Definition zoomAfter (presses : list ZoomPress) : Q :=
  fold_left zoom presses initialMapZoom.

End AppView.

(** ** A stream of updates with the effects it causes *)

Section Delivery.

Variable WGS84 : Geodesic.
Variable service : LocationService.t.

(** The callback run on each update in turn: the final state and all the
    effects, in order. *)
Fixpoint deliver (s : App.State) (us : list (LocationObject * Z))
  : App.State * list Effect :=
  match us with
  | [] => (s, [])
  | u :: rest =>
      let '(s1, fx) := App.onLocation WGS84 service (fst u) (snd u) s in
      let '(s2, fx') := deliver s1 rest in
      (s2, fx ++ fx')
  end.

End Delivery.

(** The state after a history of events that starts in [s]. *)
Definition runFrom (WGS84 : Geodesic) (service : LocationService.t)
    (s : App.State) (evs : list App.Event) : App.State :=
  fold_left (fun s e => fst (App.step WGS84 service s e)) evs s.

(** The timer is armed exactly while tracking, and an armed timer has a
    start time to count from. *)
Definition timerConsistent (s : App.State) : Prop :=
  (App.isTracking s = true <-> App.durationIntervalRef s <> None) /\
  (App.durationIntervalRef s <> None -> App.startTimeRef s <> None).



(** ** Samples written to the tracker and read back *)





(** ** Clients with canned answers *)

Module Backend.


(** A route calculator that answers with a summary and no legs at all. *)
Definition noLegsClient : LocationService.LocationClient :=
  {| LocationService.send := fun _ =>
       inl {| Results := None;
              Summary := Some {| Distance := Some 1.2;
                                 DurationSeconds := Some 300 |};
              Legs := Some []; DevicePositions := None |} |}.



End Backend.

(** ** A slow walk along the equator *)

Module Walk.

(** Four fixes, each some 2.23 m east of the one before. *)
Definition paces : list (LocationObject * Z) :=
  [(Sample.fixAt 0, 2000%Z); (Sample.fixAt (2 # 100000), 3000%Z);
   (Sample.fixAt (4 # 100000), 4000%Z); (Sample.fixAt (6 # 100000), 5000%Z)].

Definition events : list App.Event :=
  Sample.started ++ map (fun u => App.LocationUpdate (fst u) (snd u)) paces.

End Walk.

(** * Properties *)

(** ** Comparisons *)

Lemma Qgtb_true (a b : Q) : Qgtb a b = true <-> b < a.
Proof.
  unfold Qgtb. rewrite negb_true_iff. split.
  - intros H. apply Qnot_le_lt. intros Hle.
    apply Qle_bool_iff in Hle. congruence.
  - intros H. destruct (Qle_bool a b) eqn:E; [|reflexivity].
    apply Qle_bool_iff in E. exfalso. exact (Qlt_not_le _ _ H E).
Qed.

Lemma Qgtb_false (a b : Q) : Qgtb a b = false <-> a <= b.
Proof.
  unfold Qgtb. rewrite negb_false_iff. apply Qle_bool_iff.
Qed.

(** Unfolds the state setters and reduces the record projections. *)
Ltac crush_state :=
  unfold App.setIsTracking, App.setTotalDistance, App.setCurrentSpeed,
    App.setDuration, App.setCurrentPosition, App.setRouteCoordinates,
    App.setLocationSubscription, App.setStartTimeRef,
    App.setDurationIntervalRef, App.setLastPositionRef in *;
  cbn in *.

(** ** LocationService *)

Section ServiceFacts.

Import LocationService.

Variable this : LocationService.t.

Lemma trackPosition_uninitialised lat lng accuracy timestamp :
  locationClient this = None ->
  trackPosition this lat lng accuracy timestamp
  = ([ConsoleWarn "Location client not initialized"], Return None).
Proof.
  intros H. unfold trackPosition. rewrite H. reflexivity.
Qed.

Lemma trackPosition_sent client lat lng accuracy timestamp response :
  locationClient this = Some client ->
  send client (positionCommand this lat lng accuracy timestamp) = inl response ->
  trackPosition this lat lng accuracy timestamp
  = ([Send (positionCommand this lat lng accuracy timestamp);
      ConsoleLogResponse "Position tracked successfully:" response],
     Return (Some response)).
Proof.
  intros Hc Hs. unfold trackPosition, awaitSend. rewrite Hc.
  fold (positionCommand this lat lng accuracy timestamp).
  cbn. rewrite Hs. reflexivity.
Qed.

Lemma trackPosition_failed client lat lng accuracy timestamp error :
  locationClient this = Some client ->
  send client (positionCommand this lat lng accuracy timestamp) = inr error ->
  trackPosition this lat lng accuracy timestamp
  = ([Send (positionCommand this lat lng accuracy timestamp);
      ConsoleError "Failed to track position:" error],
     Throw error).
Proof.
  intros Hc Hs. unfold trackPosition, awaitSend. rewrite Hc.
  fold (positionCommand this lat lng accuracy timestamp).
  cbn. rewrite Hs. reflexivity.
Qed.

(** Whatever the client answers, an initialised service hands it exactly
    one command per call; an uninitialised one hands over nothing. *)
Lemma trackPosition_commands lat lng accuracy timestamp :
  sentCommands (effects (trackPosition this lat lng accuracy timestamp))
  = match locationClient this with
    | Some _ => [positionCommand this lat lng accuracy timestamp]
    | None => []
    end.
Proof.
  destruct (locationClient this) as [client|] eqn:Hc.
  - destruct (send client (positionCommand this lat lng accuracy timestamp))
      as [response|error] eqn:Hs.
    + rewrite (trackPosition_sent _ _ _ _ _ _ Hc Hs). reflexivity.
    + rewrite (trackPosition_failed _ _ _ _ _ _ Hc Hs). reflexivity.
  - rewrite (trackPosition_uninitialised _ _ _ _ Hc). reflexivity.
Qed.

End ServiceFacts.

(** C9. With no location client, [trackPosition] warns, sends nothing and
    fulfils its promise with [undefined], whereas [geocode],
    [reverseGeocode], [calculateRoute] and [getDevicePositionHistory] each
    reject with the error [Location client not initialized], also without
    sending. *)
Theorem uninitialised_client_behaviour (this : LocationService.t) :
  LocationService.locationClient this = None ->
  (forall lat lng accuracy timestamp,
      let r := LocationService.trackPosition this lat lng accuracy timestamp in
      completion r = Return None /\
      sentCommands (effects r) = [] /\
      effects r = [ConsoleWarn "Location client not initialized"]) /\
  (forall address,
      LocationService.geocode this address
      = ([], Throw (Error "Location client not initialized"))) /\
  (forall lat lng,
      LocationService.reverseGeocode this lat lng
      = ([], Throw (Error "Location client not initialized"))) /\
  (forall startLat startLng endLat endLng mode,
      LocationService.calculateRoute this startLat startLng endLat endLng mode
      = ([], Throw (Error "Location client not initialized"))) /\
  (forall startTime endTime,
      LocationService.getDevicePositionHistory this startTime endTime
      = ([], Throw (Error "Location client not initialized"))).
Proof.
  intros H. repeat split; intros.
  - rewrite (trackPosition_uninitialised this _ _ _ _ H). reflexivity.
  - rewrite (trackPosition_uninitialised this _ _ _ _ H). reflexivity.
  - rewrite (trackPosition_uninitialised this _ _ _ _ H). reflexivity.
  - unfold LocationService.geocode. now rewrite H.
  - unfold LocationService.reverseGeocode. now rewrite H.
  - unfold LocationService.calculateRoute. now rewrite H.
  - unfold LocationService.getDevicePositionHistory. now rewrite H.
Qed.

Lemma uninitialised_client_behaviour_witness :
  LocationService.locationClient (Sample.serviceWith None) = None /\
  completion (LocationService.trackPosition (Sample.serviceWith None)
                (35 # 1) (139 # 1) None 0%Z) = Return None /\
  LocationService.geocode (Sample.serviceWith None) "Tokyo"
  = ([], Throw (Error "Location client not initialized")).
Proof.
  pose proof (uninitialised_client_behaviour (Sample.serviceWith None)
                eq_refl) as [Ht [Hg _]].
  split; [reflexivity|]. split.
  - exact (proj1 (Ht (35 # 1) (139 # 1) None 0%Z)).
  - exact (Hg "Tokyo"%string).
Defined.

(** ** The distance helper *)

(** C10. [calculateDistanceGeodesic] always yields a number: the solver's
    [s12] when it is present, and [0] when it is missing. *)
Theorem calculateDistanceGeodesic_total
    (WGS84 : Geodesic) (lat1 lon1 lat2 lon2 : Q) :
  (s12 (Inverse WGS84 lat1 lon1 lat2 lon2) = None ->
   App.calculateDistanceGeodesic WGS84 lat1 lon1 lat2 lon2 = 0) /\
  (forall d, s12 (Inverse WGS84 lat1 lon1 lat2 lon2) = Some d ->
   App.calculateDistanceGeodesic WGS84 lat1 lon1 lat2 lon2 = d).
Proof.
  unfold App.calculateDistanceGeodesic. split.
  - intros H. rewrite H. reflexivity.
  - intros d H. rewrite H. reflexivity.
Qed.

Lemma calculateDistanceGeodesic_total_witness :
  App.calculateDistanceGeodesic Sample.silentWGS84 0 0 0 1 = 0 /\
  App.calculateDistanceGeodesic Sample.equatorWGS84 0 0 0 1
  = Sample.metresPerDegree.
Proof.
  split.
  - exact (proj1 (calculateDistanceGeodesic_total Sample.silentWGS84 0 0 0 1)
             eq_refl).
  - exact (proj2 (calculateDistanceGeodesic_total Sample.equatorWGS84 0 0 0 1)
             Sample.metresPerDegree eq_refl).
Defined.

(** ** The tracking screen *)

Section StopAndReset.

(** [stopTracking] touches the tracking flag and the two handles only. *)
Lemma stopTracking_frame (s : App.State) :
  let s' := fst (App.stopTracking s) in
  App.isTracking s' = false /\
  App.locationSubscription s' = None /\
  App.durationIntervalRef s' = None /\
  App.totalDistance s' = App.totalDistance s /\
  App.currentSpeed s' = App.currentSpeed s /\
  App.duration s' = App.duration s /\
  App.currentPosition s' = App.currentPosition s /\
  App.routeCoordinates s' = App.routeCoordinates s /\
  App.startTimeRef s' = App.startTimeRef s /\
  App.lastPositionRef s' = App.lastPositionRef s.
Proof.
  unfold App.stopTracking. crush_state.
  destruct (App.locationSubscription s), (App.durationIntervalRef s);
    cbn; repeat split; reflexivity.
Qed.

End StopAndReset.

Lemma resetTracking_fields (s : App.State) :
  let s' := fst (App.resetTracking s) in
  App.isTracking s' = false /\
  App.totalDistance s' = 0 /\
  App.currentSpeed s' = 0 /\
  App.duration s' = 0%Z /\
  App.routeCoordinates s' = [] /\
  App.lastPositionRef s' = None /\
  App.locationSubscription s' = None /\
  App.durationIntervalRef s' = None.
Proof.
  pose proof (stopTracking_frame s) as H. cbv zeta in H.
  unfold App.resetTracking.
  destruct (App.stopTracking s) as [s1 fx]. cbn [fst] in *.
  crush_state. intuition.
Qed.

(** C5. From any session state whatever, [resetTracking] leaves the zero
    state: not tracking, distance, speed and duration 0, an empty route and
    no reference position (and no subscription or timer left). *)
Theorem resetTracking_zero_state (s : App.State) :
  let s' := fst (App.resetTracking s) in
  App.isTracking s' = false /\
  App.totalDistance s' = 0 /\
  App.currentSpeed s' = 0 /\
  App.duration s' = 0%Z /\
  App.routeCoordinates s' = [] /\
  App.lastPositionRef s' = None /\
  App.locationSubscription s' = None /\
  App.durationIntervalRef s' = None.
Proof.
  exact (resetTracking_fields s).
Qed.

Section CallbackFacts.

Variable WGS84 : Geodesic.
Variable service : LocationService.t.

Let onLocation := App.onLocation WGS84 service.

(** The first fix of a session. *)
Lemma onLocation_first location now s :
  App.lastPositionRef s = None ->
  onLocation location now s
  = (App.setRouteCoordinates (fun _ => [positionOf location])
       (App.setLastPositionRef (Some (positionOf location))
          (App.setCurrentSpeed (orZero (coordsSpeed (coords location)))
             (App.setCurrentPosition (Some (positionOf location)) s))),
     []).
Proof.
  intros H. unfold onLocation, App.onLocation. crush_state.
  rewrite H. reflexivity.
Qed.

(** A later fix that moved more than the threshold. *)
Lemma onLocation_far location now s last :
  App.lastPositionRef s = Some last ->
  aboveThreshold (geodesicDistance WGS84 last (positionOf location)) = true ->
  let s' := fst (onLocation location now s) in
  App.totalDistance s'
  = App.totalDistance s + geodesicDistance WGS84 last (positionOf location) /\
  App.routeCoordinates s' = App.routeCoordinates s ++ [positionOf location] /\
  App.lastPositionRef s' = Some (positionOf location).
Proof.
  intros H Hd. unfold onLocation, App.onLocation. crush_state.
  rewrite H. unfold aboveThreshold, geodesicDistance in Hd. cbn in Hd.
  rewrite Hd. cbn. auto.
Qed.

(** A later fix within the threshold. *)
Lemma onLocation_near location now s last :
  App.lastPositionRef s = Some last ->
  aboveThreshold (geodesicDistance WGS84 last (positionOf location)) = false ->
  let s' := fst (onLocation location now s) in
  App.totalDistance s' = App.totalDistance s /\
  App.routeCoordinates s' = App.routeCoordinates s /\
  App.lastPositionRef s' = Some (positionOf location).
Proof.
  intros H Hd. unfold onLocation, App.onLocation. crush_state.
  rewrite H. unfold aboveThreshold, geodesicDistance in Hd. cbn in Hd.
  rewrite Hd. cbn. auto.
Qed.

(** What the callback hands to the service: nothing for the first fix,
    one [trackPosition] call for every later one. *)
Lemma onLocation_effects location now s :
  snd (onLocation location now s)
  = match App.lastPositionRef s with
    | None => []
    | Some _ =>
        effects (LocationService.trackPosition service
                   (coordsLatitude (coords location))
                   (coordsLongitude (coords location)) None now)
    end.
Proof.
  unfold onLocation, App.onLocation. crush_state.
  destruct (App.lastPositionRef s); reflexivity.
Qed.

(** One update never lowers the odometer. *)
Lemma onLocation_totalDistance_le location now s :
  App.totalDistance s <= App.totalDistance (fst (onLocation location now s)).
Proof.
  destruct (App.lastPositionRef s) as [last|] eqn:Hl.
  - destruct (aboveThreshold
                (geodesicDistance WGS84 last (positionOf location))) eqn:Hd.
    + destruct (onLocation_far location now s last Hl Hd) as [Ht _].
      rewrite Ht. apply Qgtb_true in Hd.
      rewrite <- (Qplus_0_r (App.totalDistance s)) at 1.
      apply Qplus_le_compat; [apply Qle_refl|].
      apply Qlt_le_weak. eapply Qlt_trans; [|exact Hd]. reflexivity.
    + destruct (onLocation_near location now s last Hl Hd) as [Ht _].
      rewrite Ht. apply Qle_refl.
  - rewrite (onLocation_first location now s Hl). cbn. apply Qle_refl.
Qed.

Lemma updates_totalDistance_le us : forall s,
  App.totalDistance s <= App.totalDistance (App.updates WGS84 service s us).
Proof.
  induction us as [|u us IH]; intros s; cbn.
  - apply Qle_refl.
  - eapply Qle_trans; [|apply IH].
    apply onLocation_totalDistance_le.
Qed.

End CallbackFacts.

(** C3. When the reference position is set and the new fix lies less than
    the threshold away from it, the update changes neither [totalDistance]
    nor [routeCoordinates]. *)
Theorem below_threshold_update_ignored
    (WGS84 : Geodesic) (service : LocationService.t)
    (s : App.State) (location : LocationObject) (now : Z) (last : Coordinate) :
  App.lastPositionRef s = Some last ->
  App.calculateDistanceGeodesic WGS84 (latitude last) (longitude last)
    (coordsLatitude (coords location)) (coordsLongitude (coords location)) < 3 ->
  let s' := fst (App.onLocation WGS84 service location now s) in
  App.totalDistance s' = App.totalDistance s /\
  App.routeCoordinates s' = App.routeCoordinates s.
Proof.
  intros Hl Hd.
  assert (Hn : aboveThreshold
                 (geodesicDistance WGS84 last (positionOf location)) = false).
  { apply Qgtb_false. apply Qlt_le_weak. exact Hd. }
  destruct (onLocation_near WGS84 service location now s last Hl Hn)
    as [Ht [Hr _]].
  split; assumption.
Qed.

(** C4. Along any stream of location updates the odometer never goes down:
    the value after a longer prefix of the stream is at least the value
    after a shorter one. *)
Theorem totalDistance_monotone
    (WGS84 : Geodesic) (service : LocationService.t)
    (s : App.State) (us1 us2 : list (LocationObject * Z)) :
  App.totalDistance (App.updates WGS84 service s us1)
  <= App.totalDistance (App.updates WGS84 service s (us1 ++ us2)).
Proof.
  unfold App.updates at 2. rewrite fold_left_app.
  apply (updates_totalDistance_le WGS84 service us2).
Qed.

Lemma below_threshold_update_ignored_witness :
  let service := Sample.serviceWith (Some Sample.okClient) in
  let s := App.run Sample.equatorWGS84 service
             (Sample.started ++ [App.LocationUpdate Sample.fix0 2000%Z]) in
  let s' := fst (App.onLocation Sample.equatorWGS84 service
                   Sample.fix1 3000%Z s) in
  App.totalDistance s' = App.totalDistance s /\
  App.routeCoordinates s' = App.routeCoordinates s.
Proof.
  cbv zeta.
  apply (below_threshold_update_ignored Sample.equatorWGS84
           (Sample.serviceWith (Some Sample.okClient)) _ Sample.fix1 3000%Z
           {| latitude := 0; longitude := 0 |}).
  - reflexivity.
  - reflexivity.
Defined.

(** ** Invariants of the reachable states *)

Section Reachable.

Variable WGS84 : Geodesic.
Variable service : LocationService.t.

Lemma onLocation_lastPositionRef location now s :
  App.lastPositionRef (fst (App.onLocation WGS84 service location now s))
  = Some (positionOf location).
Proof.
  unfold App.onLocation. crush_state.
  destruct (App.lastPositionRef s); reflexivity.
Qed.

Lemma startTracking_cases perm now timer s :
  let s' := fst (App.startTracking perm now timer s) in
  if fst (App.requestLocationPermission perm)
  then App.lastPositionRef s' = None /\ App.routeCoordinates s' = [] /\
       App.totalDistance s' = 0 /\ App.isTracking s' = true
  else s' = s.
Proof.
  unfold App.startTracking.
  destruct (App.requestLocationPermission perm) as [[|] fx]; cbn; auto.
Qed.

Lemma initialFix_frame perm r s :
  let s' := fst (App.initialFix perm r s) in
  App.totalDistance s' = App.totalDistance s /\
  App.routeCoordinates s' = App.routeCoordinates s /\
  App.lastPositionRef s' = App.lastPositionRef s.
Proof.
  unfold App.initialFix.
  destruct (App.requestLocationPermission perm) as [[|] fx];
    [destruct r|]; cbn; auto.
Qed.

Lemma watchSettled_frame r s :
  let s' := fst (App.watchSettled r s) in
  App.totalDistance s' = App.totalDistance s /\
  App.routeCoordinates s' = App.routeCoordinates s /\
  App.lastPositionRef s' = App.lastPositionRef s.
Proof.
  destruct r; cbn; auto.
Qed.

Lemma step_restsAtZero s e :
  restsAtZero s -> restsAtZero (fst (App.step WGS84 service s e)).
Proof.
  unfold restsAtZero. intros Inv.
  destruct e as [perm r|perm now timer|r|location now|now| |]; cbn [App.step].
  - destruct (initialFix_frame perm r s) as [Ht [Hr Hl]].
    rewrite Ht, Hr, Hl. exact Inv.
  - pose proof (startTracking_cases perm now timer s) as H. cbv zeta in H.
    destruct (fst (App.requestLocationPermission perm)).
    + intros _. tauto.
    + rewrite H. exact Inv.
  - destruct (watchSettled_frame r s) as [Ht [Hr Hl]].
    rewrite Ht, Hr, Hl. exact Inv.
  - rewrite onLocation_lastPositionRef. discriminate.
  - cbn. exact Inv.
  - pose proof (stopTracking_frame s) as H. cbv zeta in H.
    destruct H as (_ & _ & _ & Ht & _ & _ & _ & Hr & _ & Hl).
    rewrite Ht, Hr, Hl. exact Inv.
  - pose proof (resetTracking_fields s) as H. cbv zeta in H.
    intros _. tauto.
Qed.

Lemma fold_restsAtZero evs : forall s,
  restsAtZero s ->
  restsAtZero (fold_left (fun s e => fst (App.step WGS84 service s e)) evs s).
Proof.
  induction evs as [|e evs IH]; intros s Inv; cbn; [exact Inv|].
  apply IH. apply step_restsAtZero. exact Inv.
Qed.

Lemma run_restsAtZero evs : restsAtZero (App.run WGS84 service evs).
Proof.
  apply fold_restsAtZero. intros _. split; reflexivity.
Qed.

End Reachable.

(** C7. In every state a session can reach, a location update leaves the
    route as it is or adds the new point at its end; no point already on
    the route is removed or moved. *)
Theorem routeCoordinates_append_only
    (WGS84 : Geodesic) (service : LocationService.t)
    (evs : list App.Event) (location : LocationObject) (now : Z) :
  let s := App.run WGS84 service evs in
  let s' := fst (App.onLocation WGS84 service location now s) in
  App.routeCoordinates s' = App.routeCoordinates s \/
  App.routeCoordinates s' = App.routeCoordinates s ++ [positionOf location].
Proof.
  cbv zeta. set (s := App.run WGS84 service evs).
  destruct (App.lastPositionRef s) as [last|] eqn:Hl.
  - destruct (aboveThreshold
                (geodesicDistance WGS84 last (positionOf location))) eqn:Hd.
    + right. apply (onLocation_far WGS84 service location now s last Hl Hd).
    + left. apply (onLocation_near WGS84 service location now s last Hl Hd).
  - right. destruct (run_restsAtZero WGS84 service evs Hl) as [Hr _].
    fold s in Hr. rewrite Hr.
    rewrite (onLocation_first WGS84 service location now s Hl). reflexivity.
Qed.

(** C8. The first location update of a session (no reference position
    held) makes its point the only point of the route and the reference
    position, leaves [totalDistance] at 0, and calls nothing: no sample is
    forwarded to the tracking service. *)
Theorem first_update_seeds_route
    (WGS84 : Geodesic) (service : LocationService.t)
    (evs : list App.Event) (location : LocationObject) (now : Z) :
  App.lastPositionRef (App.run WGS84 service evs) = None ->
  let r := App.onLocation WGS84 service location now
             (App.run WGS84 service evs) in
  App.routeCoordinates (fst r) = [positionOf location] /\
  App.lastPositionRef (fst r) = Some (positionOf location) /\
  App.totalDistance (fst r) = 0 /\
  snd r = [] /\
  sentCommands (snd r) = [].
Proof.
  intros Hl. cbv zeta.
  destruct (run_restsAtZero WGS84 service evs Hl) as [_ Ht].
  rewrite (onLocation_first WGS84 service location now _ Hl).
  cbn. repeat split. exact Ht.
Qed.

Lemma first_update_seeds_route_witness :
  let service := Sample.serviceWith (Some Sample.okClient) in
  let r := App.onLocation Sample.equatorWGS84 service Sample.fix0 2000%Z
             (App.run Sample.equatorWGS84 service Sample.started) in
  App.routeCoordinates (fst r) = [positionOf Sample.fix0] /\
  App.lastPositionRef (fst r) = Some (positionOf Sample.fix0) /\
  App.totalDistance (fst r) = 0 /\
  snd r = [] /\
  sentCommands (snd r) = [].
Proof.
  cbv zeta.
  apply (first_update_seeds_route Sample.equatorWGS84
           (Sample.serviceWith (Some Sample.okClient))
           Sample.started Sample.fix0 2000%Z).
  reflexivity.
Defined.

(** ** Forwarding to the tracking service *)

(** C2, as stated, fails: with an initialised client, the first fix of a
    session is put on the route but not forwarded, and the next fix, some
    2.2 m further on, is kept off the route yet forwarded. *)
Lemma forwarding_ignores_acceptance :
  let service := Sample.serviceWith (Some Sample.okClient) in
  let s0 := App.run Sample.equatorWGS84 service Sample.started in
  let r1 := App.onLocation Sample.equatorWGS84 service Sample.fix0 2000%Z s0 in
  let r2 := App.onLocation Sample.equatorWGS84 service Sample.fix1 3000%Z
              (fst r1) in
  (App.routeCoordinates (fst r1)
   = App.routeCoordinates s0 ++ [positionOf Sample.fix0] /\
   sentCommands (snd r1) = []) /\
  (App.routeCoordinates (fst r2) = App.routeCoordinates (fst r1) /\
   App.totalDistance (fst r2) = App.totalDistance (fst r1) /\
   sentCommands (snd r2)
   = [positionCommand service 0 (2 # 100000) None 3000%Z]).
Proof.
  vm_compute. repeat split.
Qed.

(** C2, amended. Every location update that arrives while a reference
    position is held (every update of a session after its first) is handed
    once to [trackPosition], whether or not it moved more than the
    threshold; with an initialised client this sends exactly one position
    sample carrying the device identifier.  The first update of a session
    is not forwarded, and nothing is sent without a client. *)
Theorem later_updates_are_forwarded
    (WGS84 : Geodesic) (service : LocationService.t)
    (s : App.State) (location : LocationObject) (now : Z) :
  sentCommands (snd (App.onLocation WGS84 service location now s))
  = match App.lastPositionRef s, LocationService.locationClient service with
    | Some _, Some _ =>
        [positionCommand service (coordsLatitude (coords location))
           (coordsLongitude (coords location)) None now]
    | _, _ => []
    end.
Proof.
  rewrite onLocation_effects.
  destruct (App.lastPositionRef s) as [last|]; [|reflexivity].
  rewrite trackPosition_commands.
  destruct (LocationService.locationClient service); reflexivity.
Qed.

Section ServiceIndependence.

Variable WGS84 : Geodesic.
Variables service1 service2 : LocationService.t.

(** The service enters the callback only through the effects it performs. *)
Lemma step_state_independent s e :
  fst (App.step WGS84 service1 s e) = fst (App.step WGS84 service2 s e).
Proof.
  destruct e; try reflexivity.
  cbn [App.step]. unfold App.onLocation.
  destruct (App.lastPositionRef _); reflexivity.
Qed.

Lemma fold_state_independent evs : forall s,
  fold_left (fun s e => fst (App.step WGS84 service1 s e)) evs s
  = fold_left (fun s e => fst (App.step WGS84 service2 s e)) evs s.
Proof.
  induction evs as [|e evs IH]; intros s; cbn; [reflexivity|].
  rewrite step_state_independent. apply IH.
Qed.

End ServiceIndependence.

(** C6, as stated, fails: when the client's [send] throws, the promise
    [trackPosition] returns is rejected with that error, so the failure
    does reach the caller. *)
Lemma failed_send_rejects_promise :
  LocationService.trackPosition (Sample.serviceWith (Some Sample.failingClient))
    0 (2 # 100000) None 3000%Z
  = ([Send (positionCommand (Sample.serviceWith (Some Sample.failingClient))
              0 (2 # 100000) None 3000%Z);
      ConsoleError "Failed to track position:" Sample.networkError],
     Throw Sample.networkError).
Proof.
  reflexivity.
Qed.

(** C6, amended. When the remote send fails, [trackPosition] logs the
    failure and throws it again, so its promise is rejected with the same
    error; the screen never looks at that promise, and the session state
    after any history of events is the same whichever service, working or
    failing, is behind it. *)
Theorem failed_send_logged_and_rethrown
    (WGS84 : Geodesic) (this : LocationService.t)
    (client : LocationService.LocationClient)
    (lat lng : Q) (accuracy : option Q) (timestamp : Z) (error : JsError) :
  LocationService.locationClient this = Some client ->
  LocationService.send client (positionCommand this lat lng accuracy timestamp)
  = inr error ->
  LocationService.trackPosition this lat lng accuracy timestamp
  = ([Send (positionCommand this lat lng accuracy timestamp);
      ConsoleError "Failed to track position:" error],
     Throw error) /\
  (forall (other : LocationService.t) (evs : list App.Event),
      App.run WGS84 this evs = App.run WGS84 other evs).
Proof.
  intros Hc Hs. split.
  - exact (trackPosition_failed this client lat lng accuracy timestamp error
             Hc Hs).
  - intros other evs. apply fold_state_independent.
Qed.

Lemma failed_send_logged_and_rethrown_witness :
  let failing := Sample.serviceWith (Some Sample.failingClient) in
  completion (LocationService.trackPosition failing 0 (2 # 100000) None 3000%Z)
  = Throw Sample.networkError /\
  App.run Sample.equatorWGS84 failing Sample.stroll
  = App.run Sample.equatorWGS84 (Sample.serviceWith (Some Sample.okClient))
      Sample.stroll.
Proof.
  cbv zeta.
  destruct (failed_send_logged_and_rethrown Sample.equatorWGS84
              (Sample.serviceWith (Some Sample.failingClient))
              Sample.failingClient 0 (2 # 100000) None 3000%Z
              Sample.networkError eq_refl eq_refl) as [Ht Hr].
  split.
  - rewrite Ht. reflexivity.
  - apply Hr.
Defined.

(** ** The odometer against the stream of fixes *)

Lemma Qsum_app (l1 l2 : list Q) : Qsum (l1 ++ l2) == Qsum l1 + Qsum l2.
Proof.
  induction l1 as [|x l1 IH]; cbn.
  - symmetry. apply Qplus_0_l.
  - rewrite IH. apply Qplus_assoc.
Qed.

Section FixStream.

Variable WGS84 : Geodesic.
Variable service : LocationService.t.

Local Abbreviation dist := (geodesicDistance WGS84).

Lemma lastFix_snoc fixes q : lastFix (fixes ++ [q]) = Some q.
Proof.
  induction fixes as [|p rest IH]; [reflexivity|].
  destruct rest as [|r rest]; [reflexivity|].
  exact IH.
Qed.

Lemma lastFix_cons p rest : exists x, lastFix (p :: rest) = Some x.
Proof.
  revert p. induction rest as [|r rest IH]; intros p.
  - exists p. reflexivity.
  - exact (IH r).
Qed.

Lemma legs_snoc fixes q :
  legs WGS84 (fixes ++ [q])
  = legs WGS84 fixes
    ++ match lastFix fixes with
       | Some p => [dist p q]
       | None => []
       end.
Proof.
  induction fixes as [|p rest IH]; [reflexivity|].
  destruct rest as [|r rest]; [reflexivity|].
  change (legs WGS84 ((p :: r :: rest) ++ [q]))
    with (dist p r :: legs WGS84 ((r :: rest) ++ [q])).
  rewrite IH. reflexivity.
Qed.

Lemma movedDistance_snoc fixes q :
  movedDistance WGS84 (fixes ++ [q])
  == movedDistance WGS84 fixes + increment WGS84 (lastFix fixes) q.
Proof.
  unfold movedDistance, increment. rewrite legs_snoc, filter_app, Qsum_app.
  destruct (lastFix fixes) as [p|]; cbn [filter].
  - destruct (aboveThreshold (dist p q)); cbn.
    + rewrite Qplus_0_r. reflexivity.
    + reflexivity.
  - reflexivity.
Qed.

Lemma acceptedAfter_snoc fixes : forall prev q,
  acceptedAfter WGS84 prev (fixes ++ [q])
  = acceptedAfter WGS84 prev fixes
    ++ (if aboveThreshold
             (dist (match lastFix fixes with Some p => p | None => prev end) q)
        then [q] else []).
Proof.
  induction fixes as [|p rest IH]; intros prev q.
  - cbn. destruct (aboveThreshold (dist prev q)); reflexivity.
  - cbn [app acceptedAfter]. rewrite IH.
    replace (match lastFix (p :: rest) with Some x => x | None => prev end)
      with (match lastFix rest with Some x => x | None => p end).
    2:{ destruct rest as [|r rest]; [reflexivity|].
        change (lastFix (p :: r :: rest)) with (lastFix (r :: rest)).
        destruct (lastFix_cons r rest) as [x Hx]. rewrite Hx. reflexivity. }
    destruct (aboveThreshold (dist prev p)); reflexivity.
Qed.

Lemma acceptedRoute_snoc fixes q :
  acceptedRoute WGS84 (fixes ++ [q])
  = match lastFix fixes with
    | None => [q]
    | Some p =>
        acceptedRoute WGS84 fixes
        ++ (if aboveThreshold (dist p q) then [q] else [])
    end.
Proof.
  destruct fixes as [|p rest]; [reflexivity|].
  cbn [app acceptedRoute]. rewrite acceptedAfter_snoc.
  destruct rest as [|r rest]; [reflexivity|].
  change (lastFix (p :: r :: rest)) with (lastFix (r :: rest)).
  destruct (lastFix_cons r rest) as [x Hx]. rewrite Hx. reflexivity.
Qed.

Lemma tracks_unchanged s s' fixes :
  App.totalDistance s' = App.totalDistance s ->
  App.routeCoordinates s' = App.routeCoordinates s ->
  App.lastPositionRef s' = App.lastPositionRef s ->
  tracks WGS84 s fixes -> tracks WGS84 s' fixes.
Proof.
  unfold tracks. intros Ht Hr Hl. rewrite Ht, Hr, Hl. tauto.
Qed.

Lemma tracks_zero s :
  App.totalDistance s = 0 -> App.routeCoordinates s = [] ->
  App.lastPositionRef s = None -> tracks WGS84 s [].
Proof.
  unfold tracks. intros Ht Hr Hl. rewrite Ht, Hr, Hl.
  repeat split; reflexivity.
Qed.

Lemma onLocation_tracks location now s fixes :
  tracks WGS84 s fixes ->
  tracks WGS84 (fst (App.onLocation WGS84 service location now s))
    (fixes ++ [positionOf location]).
Proof.
  intros (Ht & Hr & Hl). unfold tracks.
  rewrite movedDistance_snoc, acceptedRoute_snoc, lastFix_snoc.
  rewrite <- Hl. unfold increment.
  destruct (App.lastPositionRef s) as [last|] eqn:E.
  - destruct (aboveThreshold (dist last (positionOf location))) eqn:Hd.
    + destruct (onLocation_far WGS84 service location now s last E Hd)
        as (Ht' & Hr' & Hl').
      rewrite Ht', Hr', Hl', Ht, Hr. repeat split; reflexivity.
    + destruct (onLocation_near WGS84 service location now s last E Hd)
        as (Ht' & Hr' & Hl').
      rewrite Ht', Hr', Hl', Ht, Hr, Qplus_0_r, app_nil_r.
      repeat split; reflexivity.
  - rewrite (onLocation_first WGS84 service location now s E). cbn.
    rewrite Ht, Qplus_0_r. repeat split; reflexivity.
Qed.

Lemma step_tracks s fixes e :
  tracks WGS84 s fixes ->
  tracks WGS84 (fst (App.step WGS84 service s e)) (noteFix fixes e).
Proof.
  intros Inv.
  destruct e as [perm r|perm now timer|r|location now|now| |];
    cbn [App.step noteFix].
  - destruct (initialFix_frame perm r s) as (Ht & Hr & Hl).
    exact (tracks_unchanged _ _ _ Ht Hr Hl Inv).
  - pose proof (startTracking_cases perm now timer s) as H. cbv zeta in H.
    destruct (fst (App.requestLocationPermission perm)).
    + apply tracks_zero; tauto.
    + rewrite H. exact Inv.
  - destruct (watchSettled_frame r s) as (Ht & Hr & Hl).
    exact (tracks_unchanged _ _ _ Ht Hr Hl Inv).
  - apply onLocation_tracks. exact Inv.
  - exact Inv.
  - pose proof (stopTracking_frame s) as H. cbv zeta in H.
    destruct H as (_ & _ & _ & Ht & _ & _ & _ & Hr & _ & Hl).
    exact (tracks_unchanged _ _ _ Ht Hr Hl Inv).
  - pose proof (resetTracking_fields s) as H. cbv zeta in H.
    apply tracks_zero; tauto.
Qed.

Lemma fold_tracks evs : forall s fixes,
  tracks WGS84 s fixes ->
  tracks WGS84
    (fold_left (fun s e => fst (App.step WGS84 service s e)) evs s)
    (fold_left noteFix evs fixes).
Proof.
  induction evs as [|e evs IH]; intros s fixes Inv; cbn; [exact Inv|].
  apply IH. apply step_tracks. exact Inv.
Qed.

End FixStream.

(** C1, as stated, fails: after a fix 2.2 m from the start (kept off the
    route) and a fix a further 4.5 m on, the odometer reads the last hop,
    4.45 m, while the route, start to last fix, is 6.68 m long. *)
Lemma odometer_is_not_route_length :
  let service := Sample.serviceWith (Some Sample.okClient) in
  let s := App.run Sample.equatorWGS84 service Sample.stroll in
  App.routeCoordinates s = [positionOf Sample.fix0; positionOf Sample.fix2] /\
  ~ App.totalDistance s
    == pathLength Sample.equatorWGS84 (App.routeCoordinates s).
Proof.
  cbv zeta. split.
  - reflexivity.
  - vm_compute. discriminate.
Qed.

(** C1, amended. At every point of a session, [totalDistance] is the sum,
    over the location fixes in the order received since the session was
    started or reset, of those distances from one fix to the next that
    exceed the threshold, each fix being measured from the fix received
    just before it, on the route or not; and the route is the first fix
    followed by the fixes so counted. *)
Theorem totalDistance_sums_fix_to_fix
    (WGS84 : Geodesic) (service : LocationService.t) (evs : list App.Event) :
  let s := App.run WGS84 service evs in
  App.totalDistance s == movedDistance WGS84 (sessionFixes evs) /\
  App.routeCoordinates s = acceptedRoute WGS84 (sessionFixes evs).
Proof.
  cbv zeta.
  assert (H : tracks WGS84 (App.run WGS84 service evs) (sessionFixes evs)).
  { apply fold_tracks. apply tracks_zero; reflexivity. }
  destruct H as (Ht & Hr & _). split; assumption.
Qed.

(** * Further properties of the screen *)

(** ** The clock display *)

Section ClockDisplay.

Import AppView.

(** Checked by running through the hundred numbers in question. *)
Lemma padStart_twoDigits_upto :
  forallb (fun k => String.eqb (padStart 2 "0" (toString (Z.of_nat k)))
                      (twoDigits (Z.of_nat k)))
    (seq 0 100) = true.
Proof. vm_compute. reflexivity. Qed.

Lemma padStart_twoDigits (n : Z) :
  (0 <= n < 100)%Z -> padStart 2 "0" (toString n) = twoDigits n.
Proof.
  intros Hn.
  pose proof padStart_twoDigits_upto as H.
  rewrite forallb_forall in H.
  specialize (H (Z.to_nat n)).
  rewrite Z2Nat.id in H by lia.
  apply String.eqb_eq. apply H. apply in_seq. lia.
Qed.

Lemma digit_inj (a b : Z) :
  (0 <= a < 10)%Z -> (0 <= b < 10)%Z -> digit a = digit b -> a = b.
Proof.
  intros Ha Hb H. unfold digit in H.
  apply (f_equal nat_of_ascii) in H.
  rewrite !nat_ascii_embedding in H by lia. lia.
Qed.

Lemma twoDigits_inj (a b : Z) :
  (0 <= a < 100)%Z -> (0 <= b < 100)%Z -> twoDigits a = twoDigits b -> a = b.
Proof.
  intros Ha Hb H. unfold twoDigits in H.
  injection H as H1 H2.
  apply digit_inj in H1; [|split; [apply Z.div_pos|apply Z.div_lt_upper_bound];
                           lia ..].
  apply digit_inj in H2; [|apply Z.mod_pos_bound; lia ..].
  rewrite (Z.div_mod a 10), (Z.div_mod b 10) by lia. lia.
Qed.

Lemma clock_fields (seconds : Z) :
  (0 <= seconds < 360000)%Z ->
  (0 <= seconds / 3600 < 100)%Z /\
  (0 <= seconds mod 3600 / 60 < 60)%Z /\
  (0 <= seconds mod 60 < 60)%Z /\
  seconds
  = (3600 * (seconds / 3600) + 60 * (seconds mod 3600 / 60)
     + seconds mod 60)%Z.
Proof.
  intros H. Z.div_mod_to_equations. lia.
Qed.

Lemma formatTime_fields (seconds : Z) :
  (0 <= seconds < 360000)%Z ->
  formatTime seconds
  = clockFace (seconds / 3600) (seconds mod 3600 / 60) (seconds mod 60).
Proof.
  intros H. destruct (clock_fields seconds H) as (Hh & Hm & Hs & _).
  unfold formatTime, clockFace.
  rewrite !Z.rem_mod_nonneg by lia.
  rewrite !padStart_twoDigits by lia. reflexivity.
Qed.

Lemma clockFace_inj (h m s h' m' s' : Z) :
  clockFace h m s = clockFace h' m' s' ->
  twoDigits h = twoDigits h' /\ twoDigits m = twoDigits m' /\
  twoDigits s = twoDigits s'.
Proof.
  unfold clockFace, twoDigits. cbn [append]. intros H.
  injection H as H1 H2 H3 H4 H5 H6.
  rewrite H1, H2, H3, H4, H5, H6. repeat split; reflexivity.
Qed.

End ClockDisplay.

(** X1. For a duration below one hundred hours, [formatTime] shows
    [HH:MM:SS]: hours, minutes and seconds, each written with exactly two
    digits, so the text is always eight characters long. *)
Theorem formatTime_clock_face (seconds : Z) :
  (0 <= seconds < 360000)%Z ->
  AppView.formatTime seconds
  = AppView.clockFace (seconds / 3600) (seconds mod 3600 / 60) (seconds mod 60)
  /\ String.length (AppView.formatTime seconds) = 8%nat.
Proof.
  intros H. rewrite (formatTime_fields seconds H). split; reflexivity.
Qed.

Lemma formatTime_clock_face_witness :
  AppView.formatTime 3725
  = AppView.clockFace (3725 / 3600) (3725 mod 3600 / 60) (3725 mod 60)
  /\ String.length (AppView.formatTime 3725) = 8%nat.
Proof.
  apply (formatTime_clock_face 3725). lia.
Defined.

(** X2. Below one hundred hours, two different durations never show the
    same text. *)
Theorem formatTime_injective (a b : Z) :
  (0 <= a < 360000)%Z -> (0 <= b < 360000)%Z ->
  AppView.formatTime a = AppView.formatTime b -> a = b.
Proof.
  intros Ha Hb H.
  rewrite (formatTime_fields a Ha), (formatTime_fields b Hb) in H.
  destruct (clock_fields a Ha) as (Hah & Ham & Has & Ea).
  destruct (clock_fields b Hb) as (Hbh & Hbm & Hbs & Eb).
  apply clockFace_inj in H. destruct H as (H1 & H2 & H3).
  apply twoDigits_inj in H1; [|assumption ..].
  apply twoDigits_inj in H2; [|lia ..].
  apply twoDigits_inj in H3; [|lia ..].
  lia.
Qed.

Lemma formatTime_injective_witness :
  AppView.formatTime 59 = AppView.formatTime 59 /\ 59%Z = 59%Z.
Proof.
  split; [reflexivity|].
  apply (formatTime_injective 59 59); [lia | lia | reflexivity].
Defined.

(** ** The zoom cell *)

Section Zoom.

Import AppView.

Lemma mathMax_cases (a b : Q) :
  (a <= b /\ mathMax a b = b) \/ (b < a /\ mathMax a b = a).
Proof.
  unfold mathMax. destruct (Qle_bool a b) eqn:E.
  - left. split; [apply Qle_bool_iff; exact E|reflexivity].
  - right. split; [|reflexivity].
    apply Qnot_le_lt. intros H. apply Qle_bool_iff in H. congruence.
Qed.

Lemma mathMin_cases (a b : Q) :
  (a <= b /\ mathMin a b = a) \/ (b < a /\ mathMin a b = b).
Proof.
  unfold mathMin. destruct (Qle_bool a b) eqn:E.
  - left. split; [apply Qle_bool_iff; exact E|reflexivity].
  - right. split; [|reflexivity].
    apply Qnot_le_lt. intros H. apply Qle_bool_iff in H. congruence.
Qed.

Lemma zoom_in_range (z : Q) (p : ZoomPress) :
  0.0025 <= z <= 0.05 -> 0.0025 <= zoom z p <= 0.05.
Proof.
  intros Hz. destruct p; unfold zoom, zoomIn, zoomOut.
  - destruct (mathMax_cases 0.0025 (z * 0.5)) as [[H E]|[H E]];
      rewrite E; lra.
  - destruct (mathMin_cases 0.05 (z * 2)) as [[H E]|[H E]];
      rewrite E; lra.
Qed.

Lemma fold_zoom_in_range (presses : list ZoomPress) : forall z,
  0.0025 <= z <= 0.05 -> 0.0025 <= fold_left zoom presses z <= 0.05.
Proof.
  induction presses as [|p presses IH]; intros z Hz; cbn; [exact Hz|].
  apply IH. apply zoom_in_range. exact Hz.
Qed.

End Zoom.

(** X3. Whatever series of zoom presses is made, the map zoom stays
    between 0.0025 and 0.05; a zoom-in never raises it and a zoom-out never
    lowers it. *)
Theorem mapZoom_stays_in_range (presses : list AppView.ZoomPress) :
  let z := AppView.zoomAfter presses in
  0.0025 <= z <= 0.05 /\
  AppView.zoomIn z <= z /\ z <= AppView.zoomOut z.
Proof.
  cbv zeta.
  assert (H : 0.0025 <= AppView.zoomAfter presses <= 0.05).
  { apply fold_zoom_in_range. unfold AppView.initialMapZoom. lra. }
  split; [exact H|]. unfold AppView.zoomIn, AppView.zoomOut. split.
  - destruct (mathMax_cases 0.0025 (AppView.zoomAfter presses * 0.5))
      as [[H1 E]|[H1 E]]; rewrite E; lra.
  - destruct (mathMin_cases 0.05 (AppView.zoomAfter presses * 2))
      as [[H1 E]|[H1 E]]; rewrite E; lra.
Qed.

(** X4. Away from the two limits the zoom buttons undo each other: zooming
    in then out gives back any zoom from 0.005 to 0.05, and zooming out then
    in gives back any zoom from 0.0025 to 0.025.  At the limits a press is
    absorbed: zooming in from 0.005 or less gives 0.0025, zooming out from
    0.025 or more gives 0.05. *)
Theorem zoom_buttons_undo_each_other (z : Q) :
  (0.005 <= z <= 0.05 -> AppView.zoomOut (AppView.zoomIn z) == z) /\
  (0.0025 <= z <= 0.025 -> AppView.zoomIn (AppView.zoomOut z) == z) /\
  (z <= 0.005 -> AppView.zoomIn z == 0.0025) /\
  (0.025 <= z -> AppView.zoomOut z == 0.05).
Proof.
  unfold AppView.zoomIn, AppView.zoomOut. repeat split; intros Hz.
  - destruct (mathMax_cases 0.0025 (z * 0.5)) as [[H E]|[H E]]; rewrite E.
    + destruct (mathMin_cases 0.05 (z * 0.5 * 2)) as [[H' E']|[H' E']];
        rewrite E'; lra.
    + lra.
  - destruct (mathMin_cases 0.05 (z * 2)) as [[H E]|[H E]]; rewrite E.
    + destruct (mathMax_cases 0.0025 (0.05 * 0.5)) as [[H' E']|[H' E']];
        rewrite E'; lra.
    + destruct (mathMax_cases 0.0025 (z * 2 * 0.5)) as [[H' E']|[H' E']];
        rewrite E'; lra.
  - destruct (mathMax_cases 0.0025 (z * 0.5)) as [[H E]|[H E]];
      rewrite E; lra.
  - destruct (mathMin_cases 0.05 (z * 2)) as [[H E]|[H E]];
      rewrite E; lra.
Qed.

Lemma zoom_buttons_undo_each_other_witness :
  AppView.zoomOut (AppView.zoomIn 0.01) == 0.01 /\
  AppView.zoomIn (AppView.zoomOut 0.01) == 0.01 /\
  AppView.zoomIn 0.004 == 0.0025 /\
  AppView.zoomOut 0.03 == 0.05.
Proof.
  split; [|split; [|split]].
  - apply (proj1 (zoom_buttons_undo_each_other 0.01)). lra.
  - apply (proj1 (proj2 (zoom_buttons_undo_each_other 0.01))). lra.
  - apply (proj1 (proj2 (proj2 (zoom_buttons_undo_each_other 0.004)))). lra.
  - apply (proj2 (proj2 (proj2 (zoom_buttons_undo_each_other 0.03)))). lra.
Defined.

(** ** Timer, stop and start *)

(** X5. A timer tick at or after the session's start time sets [duration]
    to the whole seconds elapsed: it is never negative, never ahead of the
    clock and less than a second behind it, and it leaves the odometer and
    the route alone. *)
Theorem durationTick_whole_seconds (s : App.State) (start now : Z) :
  App.startTimeRef s = Some start ->
  (start <= now)%Z ->
  let s' := App.durationTick now s in
  (0 <= App.duration s')%Z /\
  (1000 * App.duration s' <= now - start < 1000 * App.duration s' + 1000)%Z /\
  App.totalDistance s' = App.totalDistance s /\
  App.routeCoordinates s' = App.routeCoordinates s /\
  App.lastPositionRef s' = App.lastPositionRef s.
Proof.
  intros Hs Hn. unfold App.durationTick. rewrite Hs.
  unfold App.setDuration.
  cbn [App.duration App.totalDistance App.routeCoordinates
       App.lastPositionRef].
  repeat split; try reflexivity; Z.div_mod_to_equations; lia.
Qed.

Lemma durationTick_whole_seconds_witness :
  let s := App.run Sample.equatorWGS84 (Sample.serviceWith None)
             Sample.started in
  App.duration (App.durationTick 4999 s) = 3%Z /\
  (1000 * App.duration (App.durationTick 4999 s) <= 4999 - 1000)%Z.
Proof.
  cbv zeta. split; [reflexivity|].
  apply (durationTick_whole_seconds
           (App.run Sample.equatorWGS84 (Sample.serviceWith None)
              Sample.started) 1000 4999 eq_refl).
  lia.
Defined.

(** X6. [stopTracking] freezes the session: distance, speed, duration,
    route, current and reference position are kept.  It releases the
    subscription and the timer it holds, each once, and a second stop does
    nothing at all. *)
Theorem stopTracking_freezes_and_releases_once (s : App.State) :
  let s' := fst (App.stopTracking s) in
  (App.totalDistance s' = App.totalDistance s /\
   App.currentSpeed s' = App.currentSpeed s /\
   App.duration s' = App.duration s /\
   App.routeCoordinates s' = App.routeCoordinates s /\
   App.currentPosition s' = App.currentPosition s /\
   App.lastPositionRef s' = App.lastPositionRef s) /\
  snd (App.stopTracking s)
  = match App.locationSubscription s with
    | Some sub => [RemoveSubscription sub]
    | None => []
    end
    ++ match App.durationIntervalRef s with
       | Some id => [ClearInterval id]
       | None => []
       end /\
  App.stopTracking s' = (s', []).
Proof.
  destruct s as [tr td sp du cp rc [sub|] st [id|] lp];
    cbv zeta; unfold App.stopTracking; crush_state; repeat split.
Qed.

(** X7. Resetting twice is the same as resetting once, and the second
    reset releases nothing: after a reset no subscription or timer is
    left to release. *)
Theorem resetTracking_idempotent (s : App.State) :
  App.resetTracking (fst (App.resetTracking s))
  = (fst (App.resetTracking s), []).
Proof.
  destruct s as [tr td sp du cp rc [sub|] st [id|] lp];
    unfold App.resetTracking, App.stopTracking; crush_state; reflexivity.
Qed.

(** X8. Unless the permission answer is exactly the status [granted],
    [startTracking] changes nothing in the session, arms no timer and ends
    by raising the permission alert. *)
Theorem startTracking_without_permission
    (perm : App.PermissionOutcome) (now : Z) (timer : nat) (s : App.State) :
  perm <> App.PermissionStatus "granted" ->
  let r := App.startTracking perm now timer s in
  fst r = s /\
  ~ In (SetInterval timer) (snd r) /\
  exists fx,
    snd r = fx ++ [Alert "Permission Denied"
                     "Location permission is required to track your movement."].
Proof.
  intros Hp. cbv zeta. unfold App.startTracking.
  destruct perm as [status|err]; cbn.
  - destruct (String.eqb status "granted") eqn:E.
    + apply String.eqb_eq in E. subst status. contradiction.
    + cbn. split; [reflexivity|]. split.
      * intros [H|[]]. discriminate.
      * exists []. reflexivity.
  - split; [reflexivity|]. split.
    + intros [H|[H|[]]]; discriminate.
    + exists [ConsoleWarnError err]. reflexivity.
Qed.

Lemma startTracking_without_permission_witness :
  fst (App.startTracking (App.PermissionStatus "denied") 1000 1
         App.initialState) = App.initialState.
Proof.
  apply (startTracking_without_permission (App.PermissionStatus "denied")
           1000 1 App.initialState).
  discriminate.
Defined.

Section TimerInvariant.

Variable WGS84 : Geodesic.
Variable service : LocationService.t.

Lemma onLocation_timer_frame location now s :
  let s' := fst (App.onLocation WGS84 service location now s) in
  App.isTracking s' = App.isTracking s /\
  App.durationIntervalRef s' = App.durationIntervalRef s /\
  App.startTimeRef s' = App.startTimeRef s /\
  App.locationSubscription s' = App.locationSubscription s /\
  App.duration s' = App.duration s.
Proof.
  unfold App.onLocation. crush_state.
  destruct (App.lastPositionRef s) as [last|]; cbn; [|auto].
  destruct (Qgtb _ 3); cbn; auto.
Qed.

Lemma step_timerConsistent s e :
  timerConsistent s -> timerConsistent (fst (App.step WGS84 service s e)).
Proof.
  unfold timerConsistent. intros Inv.
  destruct e as [perm r|perm now timer|r|location now|now| |]; cbn [App.step].
  - unfold App.initialFix.
    destruct (App.requestLocationPermission perm) as [[|] fx];
      [destruct r|]; cbn; exact Inv.
  - unfold App.startTracking.
    destruct (App.requestLocationPermission perm) as [[|] fx]; cbn;
      [|exact Inv].
    split; [split|]; intros; try reflexivity; discriminate.
  - destruct r; cbn; exact Inv.
  - destruct (onLocation_timer_frame location now s) as (H1 & H2 & H3 & _).
    rewrite H1, H2, H3. exact Inv.
  - cbn. exact Inv.
  - pose proof (stopTracking_frame s) as H. cbv zeta in H.
    destruct H as (H1 & _ & H3 & _). rewrite H1, H3.
    split; [split|]; intros; try discriminate; congruence.
  - pose proof (resetTracking_fields s) as H. cbv zeta in H.
    destruct H as (H1 & _ & _ & _ & _ & _ & _ & H3). rewrite H1, H3.
    split; [split|]; intros; try discriminate; congruence.
Qed.

Lemma fold_timerConsistent evs : forall s,
  timerConsistent s -> timerConsistent (runFrom WGS84 service s evs).
Proof.
  induction evs as [|e evs IH]; intros s Inv; cbn; [exact Inv|].
  apply IH. apply step_timerConsistent. exact Inv.
Qed.

End TimerInvariant.

(** X9. In every state the screen can reach, the session is shown as
    tracking exactly while a duration timer is armed, and an armed timer
    always has a recorded start time, so a tick never counts from 0. *)
Theorem timer_armed_iff_tracking
    (WGS84 : Geodesic) (service : LocationService.t) (evs : list App.Event) :
  let s := App.run WGS84 service evs in
  (App.isTracking s = true <-> App.durationIntervalRef s <> None) /\
  (App.durationIntervalRef s <> None -> App.startTimeRef s <> None).
Proof.
  cbv zeta.
  apply (fold_timerConsistent WGS84 service evs App.initialState).
  split; [split|]; cbn; intros; try discriminate; congruence.
Qed.

(** ** The odometer and the route over a whole session *)

Lemma sentCommands_app (fx fx' : list Effect) :
  sentCommands (fx ++ fx') = sentCommands fx ++ sentCommands fx'.
Proof.
  induction fx as [|x fx IH]; [reflexivity|].
  destruct x; cbn; rewrite ?IH; reflexivity.
Qed.

Lemma Qsum_filter_le (f : Q -> bool) (l : list Q) :
  Forall (fun d => 0 <= d) l -> Qsum (filter f l) <= Qsum l.
Proof.
  induction 1 as [|d l Hd Hl IH]; cbn.
  - apply Qle_refl.
  - destruct (f d); cbn;
      fold (Qsum l) in *; fold (Qsum (filter f l)) in *; lra.
Qed.

Section SessionFacts.

Variable WGS84 : Geodesic.
Variable service : LocationService.t.

Local Abbreviation dist := (geodesicDistance WGS84).

Lemma legs_cons2 p q rest :
  legs WGS84 (p :: q :: rest) = dist p q :: legs WGS84 (q :: rest).
Proof. reflexivity. Qed.

Lemma run_tracks evs :
  tracks WGS84 (App.run WGS84 service evs) (sessionFixes evs).
Proof.
  apply fold_tracks. apply tracks_zero; reflexivity.
Qed.

Lemma acceptedAfter_length rest : forall p,
  List.length (acceptedAfter WGS84 p rest) = List.length (filter aboveThreshold (legs WGS84 (p :: rest))).
Proof.
  induction rest as [|q rest IH]; intros p; [reflexivity|].
  rewrite legs_cons2. cbn [acceptedAfter filter].
  destruct (aboveThreshold (dist p q)); cbn [List.length]; rewrite IH; reflexivity.
Qed.

Lemma acceptedRoute_hops fixes :
  (List.length (acceptedRoute WGS84 fixes) - 1)%nat = List.length (filter aboveThreshold (legs WGS84 fixes)).
Proof.
  destruct fixes as [|p rest]; [reflexivity|].
  cbn [acceptedRoute List.length]. rewrite acceptedAfter_length. lia.
Qed.

Lemma acceptedAfter_incl rest : forall p,
  incl (acceptedAfter WGS84 p rest) rest.
Proof.
  induction rest as [|q rest IH]; intros p; [apply incl_refl|].
  cbn [acceptedAfter].
  destruct (aboveThreshold (dist p q)).
  - apply incl_cons; [left; reflexivity|].
    apply incl_tl. apply IH.
  - apply incl_tl. apply IH.
Qed.

Lemma acceptedAfter_length_le rest : forall p,
  (List.length (acceptedAfter WGS84 p rest) <= List.length rest)%nat.
Proof.
  induction rest as [|q rest IH]; intros p; [apply Nat.le_refl|].
  cbn [acceptedAfter].
  destruct (aboveThreshold (dist p q)); cbn [List.length];
    specialize (IH q); lia.
Qed.

Lemma acceptedAfter_slow rest : forall p,
  Forall (fun d => d <= 3) (legs WGS84 (p :: rest)) ->
  acceptedAfter WGS84 p rest = [].
Proof.
  induction rest as [|q rest IH]; intros p H; [reflexivity|].
  rewrite legs_cons2 in H. inversion H as [|d l Hd Hl]; subst.
  cbn [acceptedAfter]. apply Qgtb_false in Hd.
  unfold aboveThreshold. rewrite Hd. apply IH. exact Hl.
Qed.

Lemma counted_slow (l : list Q) :
  Forall (fun d => d <= 3) l -> filter aboveThreshold l = [].
Proof.
  induction 1 as [|d l Hd Hl IH]; [reflexivity|].
  cbn [filter]. apply Qgtb_false in Hd.
  unfold aboveThreshold at 1. rewrite Hd. exact IH.
Qed.

Lemma counted_above fixes :
  Forall (fun d => 3 < d) (filter aboveThreshold (legs WGS84 fixes)).
Proof.
  apply Forall_forall. intros d Hd. apply filter_In in Hd.
  apply Qgtb_true. exact (proj2 Hd).
Qed.

Lemma Qsum_above (l : list Q) :
  Forall (fun d => 3 < d) l ->
  3 * inject_Z (Z.of_nat (List.length l)) <= Qsum l /\ (l <> [] -> 0 < Qsum l).
Proof.
  induction 1 as [|d l Hd Hl [IH _]].
  - split; [unfold Qle; cbn; lia|]. intros H. contradiction.
  - cbn [List.length Qsum fold_right]. fold (Qsum l).
    rewrite Nat2Z.inj_succ. unfold Z.succ. rewrite inject_Z_plus.
    change (inject_Z 1) with 1.
    assert (H0 : 0 <= inject_Z (Z.of_nat (List.length l))).
    { change 0 with (inject_Z 0). rewrite <- Zle_Qle. lia. }
    split; [lra|]. intros _. lra.
Qed.

Lemma deliver_state us : forall s,
  fst (deliver WGS84 service s us) = App.updates WGS84 service s us.
Proof.
  induction us as [|u us IH]; intros s; [reflexivity|].
  cbn [deliver App.updates fold_left].
  destruct (App.onLocation WGS84 service (fst u) (snd u) s) as [s1 fx] eqn:E.
  specialize (IH s1).
  destruct (deliver WGS84 service s1 us) as [s2 fx'].
  cbn [fst] in *. exact IH.
Qed.

(** Every update past the first hands one command to an initialised
    client. *)
Lemma deliver_sent_held us : forall s last,
  App.lastPositionRef s = Some last ->
  List.length (sentCommands (snd (deliver WGS84 service s us)))
  = match LocationService.locationClient service with
    | Some _ => List.length us
    | None => 0%nat
    end.
Proof.
  induction us as [|u us IH]; intros s last Hl.
  - destruct (LocationService.locationClient service); reflexivity.
  - cbn [deliver].
    pose proof (onLocation_effects WGS84 service (fst u) (snd u) s) as Hfx.
    pose proof (onLocation_lastPositionRef WGS84 service (fst u) (snd u) s)
      as Hl'.
    destruct (App.onLocation WGS84 service (fst u) (snd u) s) as [s1 fx].
    cbn [fst snd] in *. specialize (IH s1 _ Hl').
    destruct (deliver WGS84 service s1 us) as [s2 fx']. cbn [snd] in *.
    rewrite sentCommands_app, length_app, IH, Hfx, Hl.
    rewrite trackPosition_commands.
    destruct (LocationService.locationClient service); reflexivity.
Qed.

End SessionFacts.

(** X10. Slow movement is never counted: as long as every fix of the
    session lies within the threshold of the fix before it, the odometer
    stays at 0 and the route is just the first fix, however far the fixes
    have drifted from the start. *)
Theorem slow_movement_never_counted
    (WGS84 : Geodesic) (service : LocationService.t) (evs : list App.Event) :
  Forall (fun d => d <= 3) (legs WGS84 (sessionFixes evs)) ->
  let s := App.run WGS84 service evs in
  App.totalDistance s == 0 /\
  App.routeCoordinates s = firstn 1 (sessionFixes evs).
Proof.
  intros Hslow. cbv zeta.
  destruct (run_tracks WGS84 service evs) as (Ht & Hr & _).
  rewrite Ht, Hr. unfold movedDistance.
  rewrite (counted_slow _ Hslow). split; [reflexivity|].
  destruct (sessionFixes evs) as [|p rest]; [reflexivity|].
  cbn [acceptedRoute firstn].
  rewrite (acceptedAfter_slow WGS84 rest p Hslow). reflexivity.
Qed.

Lemma slow_movement_never_counted_witness :
  let s := App.run Sample.equatorWGS84 (Sample.serviceWith None)
             Walk.events in
  App.totalDistance s == 0 /\
  App.routeCoordinates s = [positionOf (Sample.fixAt 0)] /\
  3 < geodesicDistance Sample.equatorWGS84
        (positionOf (Sample.fixAt 0)) (positionOf (Sample.fixAt (6 # 100000))).
Proof.
  cbv zeta.
  assert (H : Forall (fun d => d <= 3)
                (legs Sample.equatorWGS84 (sessionFixes Walk.events))).
  { repeat constructor; vm_compute; discriminate. }
  destruct (slow_movement_never_counted Sample.equatorWGS84
              (Sample.serviceWith None) Walk.events H) as [Ht Hr].
  split; [exact Ht|]. split; [exact Hr|]. reflexivity.
Defined.

(** X11. At every point of a session the odometer has gained more than the
    threshold for each point added to the route after the first: it is at
    least three metres per such point, and it is above 0 exactly when the
    route has more than one point, which is when the polyline is drawn. *)
Theorem odometer_counts_three_metres_per_route_point
    (WGS84 : Geodesic) (service : LocationService.t) (evs : list App.Event) :
  let s := App.run WGS84 service evs in
  let added := (List.length (App.routeCoordinates s) - 1)%nat in
  3 * inject_Z (Z.of_nat added) <= App.totalDistance s /\
  ((1 < List.length (App.routeCoordinates s))%nat <-> 0 < App.totalDistance s).
Proof.
  cbv zeta.
  destruct (run_tracks WGS84 service evs) as (Ht & Hr & _).
  rewrite Ht, Hr, acceptedRoute_hops. unfold movedDistance.
  pose proof (counted_above WGS84 (sessionFixes evs)) as Habove.
  destruct (Qsum_above _ Habove) as [Hle Hpos].
  split; [exact Hle|]. split.
  - intros H. apply Hpos. intros E.
    pose proof (acceptedRoute_hops WGS84 (sessionFixes evs)) as Hh.
    rewrite E in Hh. cbn in Hh. lia.
  - intros H.
    pose proof (acceptedRoute_hops WGS84 (sessionFixes evs)) as Hh.
    destruct (filter aboveThreshold (legs WGS84 (sessionFixes evs))) eqn:E.
    + cbn in H. lra.
    + cbn [List.length] in Hh. lia.
Qed.

(** X12. With a solver that never reports a negative distance, the
    odometer never exceeds the length of the path through all the fixes
    received in the session. *)
Theorem odometer_at_most_path_through_fixes
    (WGS84 : Geodesic) (service : LocationService.t) (evs : list App.Event) :
  (forall lat1 lon1 lat2 lon2,
      0 <= App.calculateDistanceGeodesic WGS84 lat1 lon1 lat2 lon2) ->
  App.totalDistance (App.run WGS84 service evs)
  <= pathLength WGS84 (sessionFixes evs).
Proof.
  intros Hpos.
  destruct (run_tracks WGS84 service evs) as (Ht & _ & _).
  rewrite Ht. unfold movedDistance, pathLength. clear Ht.
  apply Qsum_filter_le.
  induction (sessionFixes evs) as [|p rest IH]; [constructor|].
  destruct rest as [|q rest]; [constructor|].
  rewrite legs_cons2. constructor; [apply Hpos|exact IH].
Qed.

Lemma odometer_at_most_path_through_fixes_witness :
  App.totalDistance
    (App.run Sample.equatorWGS84 (Sample.serviceWith None) Sample.stroll)
  <= pathLength Sample.equatorWGS84 (sessionFixes Sample.stroll).
Proof.
  apply (odometer_at_most_path_through_fixes Sample.equatorWGS84
           (Sample.serviceWith None) Sample.stroll).
  intros lat1 lon1 lat2 lon2.
  change (0 <= Qabs (lon2 - lon1) * Sample.metresPerDegree).
  apply Qmult_le_0_compat; [apply Qabs_nonneg|discriminate].
Defined.

(** X13. The route only ever holds fixes of the session: it starts with
    the first fix received, every point on it is one of the fixes, and it
    is never longer than the stream of fixes. *)
Theorem route_is_drawn_from_fixes
    (WGS84 : Geodesic) (service : LocationService.t) (evs : list App.Event) :
  let s := App.run WGS84 service evs in
  hd_error (App.routeCoordinates s) = hd_error (sessionFixes evs) /\
  incl (App.routeCoordinates s) (sessionFixes evs) /\
  (List.length (App.routeCoordinates s)
   <= List.length (sessionFixes evs))%nat.
Proof.
  cbv zeta.
  destruct (run_tracks WGS84 service evs) as (_ & Hr & _).
  rewrite Hr.
  destruct (sessionFixes evs) as [|p rest].
  - repeat split; [apply incl_refl|apply Nat.le_refl].
  - cbn [acceptedRoute hd_error List.length]. repeat split.
    + apply incl_cons; [left; reflexivity|].
      apply incl_tl. apply acceptedAfter_incl.
    + pose proof (acceptedAfter_length_le WGS84 rest p). lia.
Qed.

(** X14. Over a stream of updates, an initialised client is handed one
    position command for every update except the first of a session: as
    many commands as updates when a reference position is already held, one
    fewer when it is not, and none at all without a client. *)
Theorem forwarded_samples_count
    (WGS84 : Geodesic) (service : LocationService.t)
    (s : App.State) (us : list (LocationObject * Z)) :
  fst (deliver WGS84 service s us) = App.updates WGS84 service s us /\
  List.length (sentCommands (snd (deliver WGS84 service s us)))
  = match LocationService.locationClient service, App.lastPositionRef s with
    | Some _, Some _ => List.length us
    | Some _, None => pred (List.length us)
    | None, _ => 0%nat
    end.
Proof.
  split; [apply deliver_state|].
  destruct (App.lastPositionRef s) as [last|] eqn:Hl.
  - rewrite (deliver_sent_held WGS84 service us s last Hl).
    destruct (LocationService.locationClient service); reflexivity.
  - destruct us as [|u us].
    + destruct (LocationService.locationClient service); reflexivity.
    + cbn [deliver].
      pose proof (onLocation_effects WGS84 service (fst u) (snd u) s) as Hfx.
      pose proof (onLocation_lastPositionRef WGS84 service (fst u) (snd u) s)
        as Hl'.
      destruct (App.onLocation WGS84 service (fst u) (snd u) s) as [s1 fx].
      cbn [fst snd] in *.
      pose proof (deliver_sent_held WGS84 service us s1 _ Hl') as Hrest.
      destruct (deliver WGS84 service s1 us) as [s2 fx']. cbn [snd] in *.
      rewrite sentCommands_app, length_app, Hrest, Hfx, Hl.
      destruct (LocationService.locationClient service); reflexivity.
Qed.

(** X15. Every update, counted or not, moves the current-position marker
    and the reference position to the new fix and shows the reported speed,
    0 when none is reported; it changes neither the tracking flag, the
    duration, the timer nor the subscription. *)
Theorem every_update_moves_the_marker
    (WGS84 : Geodesic) (service : LocationService.t)
    (s : App.State) (location : LocationObject) (now : Z) :
  let s' := fst (App.onLocation WGS84 service location now s) in
  App.currentPosition s' = Some (positionOf location) /\
  App.lastPositionRef s' = Some (positionOf location) /\
  App.currentSpeed s' == nullish0 (coordsSpeed (coords location)) /\
  App.isTracking s' = App.isTracking s /\
  App.duration s' = App.duration s /\
  App.durationIntervalRef s' = App.durationIntervalRef s /\
  App.locationSubscription s' = App.locationSubscription s.
Proof.
  cbv zeta.
  destruct (onLocation_timer_frame WGS84 service location now s)
    as (H1 & H2 & _ & H4 & H5).
  split; [|split; [apply onLocation_lastPositionRef|split; [|tauto]]].
  - unfold App.onLocation. crush_state.
    destruct (App.lastPositionRef s); cbn; [|reflexivity].
    destruct (Qgtb _ 3); reflexivity.
  - assert (E : App.currentSpeed
                  (fst (App.onLocation WGS84 service location now s))
                = orZero (coordsSpeed (coords location))).
    { unfold App.onLocation. crush_state.
      destruct (App.lastPositionRef s); cbn; [|reflexivity].
      destruct (Qgtb _ 3); reflexivity. }
    rewrite E. unfold orZero, nullish0.
    destruct (coordsSpeed (coords location)) as [v|]; [|reflexivity].
    destruct (Qeq_bool v 0) eqn:Ev; [|reflexivity].
    symmetry. apply Qeq_bool_iff. exact Ev.
Qed.

(** * Further properties of the location service *)

Section QueryFacts.

Import LocationService.

Variable this : LocationService.t.
Variable client : LocationClient.
Hypothesis initialised : locationClient this = Some client.

Lemma geocode_unfold address :
  geocode this address
  = tryCatch
      (bind (awaitSend client
               (SearchPlaceIndexForTextCommand (placeIndexName this) address 1))
         (fun response =>
            match Results response with
            | Some (r0 :: _) =>
                ret (Some {| gLatitude := pointAt (place r0) 1;
                             gLongitude := pointAt (place r0) 0;
                             gAddress := placeField Label (place r0) |})
            | _ => ret None
            end))
      (fun error =>
         bind (emit (ConsoleError "Geocoding failed:" error))
           (fun _ => throw error)).
Proof.
  unfold geocode. rewrite initialised. reflexivity.
Qed.

Lemma awaitSend_ok c response :
  send client c = inl response -> awaitSend client c = ([Send c], Return response).
Proof.
  intros H. unfold awaitSend. cbn. rewrite H. reflexivity.
Qed.

Lemma awaitSend_failed c error :
  send client c = inr error -> awaitSend client c = ([Send c], Throw error).
Proof.
  intros H. unfold awaitSend. cbn. rewrite H. reflexivity.
Qed.

Lemma geocode_sends address :
  sentCommands (effects (geocode this address))
  = [SearchPlaceIndexForTextCommand (placeIndexName this) address 1].
Proof.
  rewrite geocode_unfold.
  destruct (send client
              (SearchPlaceIndexForTextCommand (placeIndexName this) address 1))
    as [r|e] eqn:E.
  - rewrite (awaitSend_ok _ _ E). cbn.
    destruct (Results r) as [[|r0 rest]|]; reflexivity.
  - rewrite (awaitSend_failed _ _ E). reflexivity.
Qed.

Lemma reverseGeocode_sends lat lng :
  sentCommands (effects (reverseGeocode this lat lng))
  = [SearchPlaceIndexForPositionCommand (placeIndexName this) (lng, lat) 1].
Proof.
  unfold reverseGeocode. rewrite initialised.
  destruct (send client
              (SearchPlaceIndexForPositionCommand (placeIndexName this)
                 (lng, lat) 1)) as [r|e] eqn:E.
  - rewrite (awaitSend_ok _ _ E). cbn.
    destruct (Results r) as [[|r0 rest]|]; reflexivity.
  - rewrite (awaitSend_failed _ _ E). reflexivity.
Qed.

Lemma calculateRoute_sends startLat startLng endLat endLng mode :
  sentCommands (effects (calculateRoute this startLat startLng endLat endLng
                           mode))
  = [CalculateRouteCommand (routeCalculatorName this)
       (startLng, startLat) (endLng, endLat) mode true "Kilometers"].
Proof.
  unfold calculateRoute. rewrite initialised.
  destruct (send client
              (CalculateRouteCommand (routeCalculatorName this)
                 (startLng, startLat) (endLng, endLat) mode true "Kilometers"))
    as [r|e] eqn:E.
  - rewrite (awaitSend_ok _ _ E). cbn.
    destruct (Legs r) as [[|l0 rest]|]; reflexivity.
  - rewrite (awaitSend_failed _ _ E). reflexivity.
Qed.

Lemma getDevicePositionHistory_sends startTime endTime :
  sentCommands (effects (getDevicePositionHistory this startTime endTime))
  = [GetDevicePositionHistoryCommand (trackerName this) (deviceId this)
       startTime endTime].
Proof.
  unfold getDevicePositionHistory. rewrite initialised.
  destruct (send client
              (GetDevicePositionHistoryCommand (trackerName this)
                 (deviceId this) startTime endTime)) as [r|e] eqn:E.
  - rewrite (awaitSend_ok _ _ E). reflexivity.
  - rewrite (awaitSend_failed _ _ E). reflexivity.
Qed.

End QueryFacts.

(** X16. With an initialised client, each of [geocode], [reverseGeocode],
    [calculateRoute] and [getDevicePositionHistory] hands the client
    exactly one command, whether the call then succeeds or fails; points
    are sent longitude first, and a search asks for one result only. *)
Theorem queries_send_exactly_one_command
    (this : LocationService.t) (client : LocationService.LocationClient) :
  LocationService.locationClient this = Some client ->
  (forall address,
      sentCommands (effects (LocationService.geocode this address))
      = [SearchPlaceIndexForTextCommand
           (LocationService.placeIndexName this) address 1]) /\
  (forall lat lng,
      sentCommands (effects (LocationService.reverseGeocode this lat lng))
      = [SearchPlaceIndexForPositionCommand
           (LocationService.placeIndexName this) (lng, lat) 1]) /\
  (forall startLat startLng endLat endLng mode,
      sentCommands (effects (LocationService.calculateRoute this
                               startLat startLng endLat endLng mode))
      = [CalculateRouteCommand (LocationService.routeCalculatorName this)
           (startLng, startLat) (endLng, endLat) mode true "Kilometers"]) /\
  (forall startTime endTime,
      sentCommands (effects (LocationService.getDevicePositionHistory this
                               startTime endTime))
      = [GetDevicePositionHistoryCommand (LocationService.trackerName this)
           (LocationService.deviceId this) startTime endTime]).
Proof.
  intros H. repeat split; intros.
  - apply (geocode_sends this client H).
  - apply (reverseGeocode_sends this client H).
  - apply (calculateRoute_sends this client H).
  - apply (getDevicePositionHistory_sends this client H).
Qed.

Lemma queries_send_exactly_one_command_witness :
  sentCommands
    (effects (LocationService.calculateRoute
                (Sample.serviceWith (Some Sample.failingClient))
                35 139 36 140 Walking))
  = [CalculateRouteCommand "routes" (139, 35) (140, 36) Walking true
       "Kilometers"].
Proof.
  apply (queries_send_exactly_one_command
           (Sample.serviceWith (Some Sample.failingClient))
           Sample.failingClient eq_refl).
Defined.

(** X17. When the client's [send] throws, each of the four query methods
    logs the error once under its own heading and rejects with that very
    error; nothing else is done. *)
Theorem query_failures_logged_and_rethrown
    (this : LocationService.t) (client : LocationService.LocationClient)
    (error : JsError) :
  LocationService.locationClient this = Some client ->
  (forall c, LocationService.send client c = inr error) ->
  (forall address,
      LocationService.geocode this address
      = ([Send (SearchPlaceIndexForTextCommand
                  (LocationService.placeIndexName this) address 1);
          ConsoleError "Geocoding failed:" error], Throw error)) /\
  (forall lat lng,
      LocationService.reverseGeocode this lat lng
      = ([Send (SearchPlaceIndexForPositionCommand
                  (LocationService.placeIndexName this) (lng, lat) 1);
          ConsoleError "Reverse geocoding failed:" error], Throw error)) /\
  (forall startLat startLng endLat endLng mode,
      LocationService.calculateRoute this startLat startLng endLat endLng mode
      = ([Send (CalculateRouteCommand
                  (LocationService.routeCalculatorName this)
                  (startLng, startLat) (endLng, endLat) mode true
                  "Kilometers");
          ConsoleError "Route calculation failed:" error], Throw error)) /\
  (forall startTime endTime,
      LocationService.getDevicePositionHistory this startTime endTime
      = ([Send (GetDevicePositionHistoryCommand
                  (LocationService.trackerName this)
                  (LocationService.deviceId this) startTime endTime);
          ConsoleError "Failed to get position history:" error],
         Throw error)).
Proof.
  intros Hc Hs. repeat split; intros.
  - unfold LocationService.geocode. rewrite Hc.
    rewrite (awaitSend_failed client _ error (Hs _)). reflexivity.
  - unfold LocationService.reverseGeocode. rewrite Hc.
    rewrite (awaitSend_failed client _ error (Hs _)). reflexivity.
  - unfold LocationService.calculateRoute. rewrite Hc.
    rewrite (awaitSend_failed client _ error (Hs _)). reflexivity.
  - unfold LocationService.getDevicePositionHistory. rewrite Hc.
    rewrite (awaitSend_failed client _ error (Hs _)). reflexivity.
Qed.

Lemma query_failures_logged_and_rethrown_witness :
  LocationService.geocode (Sample.serviceWith (Some Sample.failingClient))
    "Tokyo"
  = ([Send (SearchPlaceIndexForTextCommand "places" "Tokyo" 1);
      ConsoleError "Geocoding failed:" Sample.networkError],
     Throw Sample.networkError).
Proof.
  apply (query_failures_logged_and_rethrown
           (Sample.serviceWith (Some Sample.failingClient))
           Sample.failingClient Sample.networkError eq_refl).
  intros c. reflexivity.
Defined.


(** X19. What [calculateRoute] makes of a successful answer.  Without a
    [Legs] field the route is returned with no geometry, its distance and
    duration taken from the summary.  With an empty [Legs] list the call
    fails although the request succeeded: reading the first leg throws a
    type error, which is logged as a failed route calculation and
    rejected.  With legs, the geometry is that of the first leg alone. *)
Theorem calculateRoute_reads_first_leg
    (this : LocationService.t) (client : LocationService.LocationClient)
    (startLat startLng endLat endLng : Q) (mode : TravelMode)
    (response : Response) :
  LocationService.locationClient this = Some client ->
  LocationService.send client
    (CalculateRouteCommand (LocationService.routeCalculatorName this)
       (startLng, startLat) (endLng, endLat) mode true "Kilometers")
  = inl response ->
  let r := LocationService.calculateRoute this startLat startLng endLat endLng
             mode in
  let distance :=
    match Summary response with Some s => Distance s | None => None end in
  let duration :=
    match Summary response with Some s => DurationSeconds s | None => None end in
  (Legs response = None ->
   completion r
   = Return {| LocationService.rtDistance := distance;
               LocationService.rtDuration := duration;
               LocationService.rtGeometry := None |}) /\
  (Legs response = Some [] ->
   exists msg,
     completion r = Throw (TypeError msg) /\
     In (ConsoleError "Route calculation failed:" (TypeError msg)) (effects r)) /\
  (forall l0 rest,
      Legs response = Some (l0 :: rest) ->
      completion r
      = Return {| LocationService.rtDistance := distance;
                  LocationService.rtDuration := duration;
                  LocationService.rtGeometry :=
                    match legGeometry l0 with
                    | Some g => LineString g
                    | None => None
                    end |}).
Proof.
  intros Hc Hs. cbv zeta. unfold LocationService.calculateRoute.
  rewrite Hc, (awaitSend_ok client _ response Hs).
  split; [|split].
  - intros H. cbn. rewrite H. reflexivity.
  - intros H. cbn. rewrite H. cbn. eexists. split; [reflexivity|].
    right. left. reflexivity.
  - intros l0 rest H. cbn. rewrite H. reflexivity.
Qed.

Section ReadBack.

Variable this : LocationService.t.
Variable client : LocationService.LocationClient.
Hypothesis initialised : LocationService.locationClient this = Some client.


End ReadBack.



Lemma calculateRoute_reads_first_leg_witness :
  exists msg,
    completion (LocationService.calculateRoute
                  (Sample.serviceWith (Some Backend.noLegsClient))
                  35 139 36 140 Car)
    = Throw (TypeError msg).
Proof.
  destruct (proj1 (proj2 (calculateRoute_reads_first_leg
                            (Sample.serviceWith (Some Backend.noLegsClient))
                            Backend.noLegsClient 35 139 36 140 Car _
                            eq_refl eq_refl)) eq_refl) as [msg [H _]].
  exists msg. exact H.
Defined.

